(** * Verification of [python/paddle/v2/fluid/io.py]

    The module saves and restores the variables of a fluid [Program] and
    builds, writes and reads back the pruned inference program.  The
    development embeds its functions over a small model of the Python
    run time (exceptions, an object store for programs, the file system)
    and of the framework classes the module drives ([Variable], [Block],
    [Program], the executor). *)

From Stdlib Require Import Ascii String.
From stdpp Require Import gmap strings list fin_maps.

Local Open Scope string_scope.

(** ** Python exceptions and outcomes *)

Inductive exn_class :=
| TypeError | ValueError | AssertionError | IndexError
| AttributeError | IOError | OSError | StopIteration | EnforceNotMet.

(** An exception instance: its class and its [args] tuple. *)
Record exn := Exn { exn_cls : exn_class; exn_args : list string }.

Inductive outcome (A : Type) :=
| Ok (a : A)
| Raise (e : exn).
Arguments Ok {A} a.
Arguments Raise {A} e.

#[global] Instance outcome_ret : MRet outcome := λ A a, Ok a.
#[global] Instance outcome_bind : MBind outcome := λ A B k o,
  match o with Ok a => k a | Raise e => Raise e end.

#[global] Instance exn_class_eq_dec : EqDecision exn_class.
Proof. solve_decision. Defined.

(** ** The framework's graph classes

    [framework.py] is not part of the verified file; the classes are
    modelled by the attributes and methods [io.py] uses. *)

Inductive VarType :=
| LOD_TENSOR | SELECTED_ROWS | FEED_MINIBATCH | FETCH_LIST
| STEP_SCOPES | LOD_RANK_TABLE | LOD_TENSOR_ARRAY.

(** The framework class [Variable] is the record [Var] below ([Variable] is
    reserved).  The Python class of a variable object: [Parameter] is a subclass of
    [Variable]. *)
Inductive var_class := cls_Variable | cls_Parameter.

Record Var := mkVar {
  var_cls : var_class;
  name : string;
  shape : option (list Z);
  dtype : option string;
  type : VarType;
  lod_level : option nat;
  persistable : bool
}.

Inductive Attr :=
| AttrStr (s : string)
| AttrInt (n : nat).

(** An operator as its description holds it: slot names mapped to
    variable names, and attributes. *)
Record Operator := mkOperator {
  op_type : string;
  op_inputs : list (string * list string);
  op_outputs : list (string * list string);
  op_attrs : list (string * Attr)
}.

Record Block := mkBlock {
  vars : gmap string Var;
  ops : list Operator
}.

(** A program always has its global block, [blocks[0]]. *)
Record Program := mkProgram {
  global_block : Block;
  sub_blocks : list Block
}.

Definition blocks (p : Program) : list Block := global_block p :: sub_blocks p.

#[global] Instance VarType_eq_dec : EqDecision VarType.
Proof. solve_decision. Defined.
#[global] Instance var_class_eq_dec : EqDecision var_class.
Proof. solve_decision. Defined.
#[global] Instance Var_eq_dec : EqDecision Var.
Proof. solve_decision. Defined.
#[global] Instance Attr_eq_dec : EqDecision Attr.
Proof. solve_decision. Defined.
#[global] Instance Operator_eq_dec : EqDecision Operator.
Proof. solve_decision. Defined.

(** [Program()]: one empty global block. *)
Definition Program_new : Program :=
  {| global_block := {| vars := ∅; ops := [] |}; sub_blocks := [] |}.

(** Modelled from the spec: [Block.create_var] of framework.py is
    missing; the spec has the module put variables and save/load operator
    nodes into a throwaway graph, so the method declares the variable
    under its name in the block and returns it; the result is a plain
    [Variable]. *)
Definition create_var (b : Block) (nm : string) (sh : option (list Z))
    (dt : option string) (ty : VarType) (ll : option nat) (pers : bool)
    : Var * Block :=
  let v := {| var_cls := cls_Variable; name := nm; shape := sh; dtype := dt;
              type := ty; lod_level := ll; persistable := pers |} in
  (v, {| vars := <[nm := v]> (vars b); ops := ops b |}).

(** Modelled from the spec: [Block.append_op] of framework.py is missing;
    it emits the operator node at the end of the block's operator list. *)
Definition append_op (b : Block) (o : Operator) : Block :=
  {| vars := vars b; ops := ops b ++ [o] |}.

(** Modelled from the spec: [Block.prepend_op] of framework.py is
    missing; it emits the operator node at the front of the block's
    operator list. *)
Definition prepend_op (b : Block) (o : Operator) : Block :=
  {| vars := vars b; ops := o :: ops b |}.

(** Modelled from the spec: [Block.var] of framework.py is missing; it
    looks a variable up by name and raises when the block does not
    declare it. *)
Definition Block_var (b : Block) (nm : string) : outcome Var :=
  match vars b !! nm with
  | Some v => Ok v
  | None => Raise (Exn ValueError ["var " ++ nm ++ " not in this block"])
  end.

(** Modelled from the spec: [Program.list_vars] of framework.py is
    missing; it yields the variables of every block of the program. *)
Definition list_vars (p : Program) : list Var :=
  b ← blocks p; (map_to_list (vars b)).*2.

Definition set_global_block (p : Program) (b : Block) : Program :=
  {| global_block := b; sub_blocks := sub_blocks p |}.

(** [op.desc.input(slot)] and [op.desc.output(slot)]. *)
Definition slot_lookup (slots : list (string * list string)) (k : string)
    : list string :=
  match list_find (λ kv, kv.1 = k) slots with
  | Some (_, (_, l)) => l
  | None => []
  end.

Definition desc_input (o : Operator) (k : string) : list string :=
  slot_lookup (op_inputs o) k.
Definition desc_output (o : Operator) (k : string) : list string :=
  slot_lookup (op_outputs o) k.

(** [l[0]] on a Python list. *)
Definition py_first (l : list string) : outcome string :=
  match l with
  | x :: _ => Ok x
  | [] => Raise (Exn IndexError ["list index out of range"])
  end.

(** ** Paths and the file system

    [os.path.join] is Python's (posixpath).  A path string is resolved
    the way the operating system does without symbolic links: split at
    the slashes, empty components and [.] dropped, [..] going one level
    up, a relative path starting at the working directory.  A resolved
    path lists its components from the innermost one to the root, so
    that [n :: p] is the entry [n] of the directory [p]. *)

Module os_path.

Definition startswith_slash (s : string) : bool :=
  match s with
  | String c _ => bool_decide (c = "/"%char)
  | EmptyString => false
  end.

Fixpoint endswith_slash (s : string) : bool :=
  match s with
  | EmptyString => false
  | String c EmptyString => bool_decide (c = "/"%char)
  | String _ s' => endswith_slash s'
  end.

Definition join (a b : string) : string :=
  if startswith_slash b then b
  else if bool_decide (a = "") || endswith_slash a then a ++ b
  else a ++ "/" ++ b.

Fixpoint split_slash (s : string) : list string :=
  match s with
  | EmptyString => [EmptyString]
  | String c s' =>
      if bool_decide (c = "/"%char) then EmptyString :: split_slash s'
      else match split_slash s' with
           | h :: t => String c h :: t
           | [] => [String c EmptyString]
           end
  end.

Definition step (acc : list string) (c : string) : list string :=
  if bool_decide (c = "" ∨ c = ".") then acc
  else if bool_decide (c = "..") then tail acc
  else c :: acc.

Definition resolve (cwd : list string) (s : string) : list string :=
  fold_left step (split_slash s) (if startswith_slash s then [] else cwd).

(** A plain file name: one component that names an entry. *)
Fixpoint has_slash (s : string) : bool :=
  match s with
  | EmptyString => false
  | String c s' => bool_decide (c = "/"%char) || has_slash s'
  end.

Definition plain_name (n : string) : bool :=
  negb (has_slash n) && bool_decide (n ≠ "" ∧ n ≠ "." ∧ n ≠ "..").

End os_path.

Inductive node :=
| Dir
| File (data : string).

#[global] Instance node_eq_dec : EqDecision node.
Proof. solve_decision. Defined.

Record FS := mkFS {
  cwd : list string;
  tree : gmap (list string) node
}.

Module fs_ops.

Definition resolve (fs : FS) (s : string) : list string :=
  os_path.resolve (cwd fs) s.

(** The root always is a directory. *)
Definition node_at (t : gmap (list string) node) (p : list string) : option node :=
  match p with
  | [] => Some Dir
  | _ => t !! p
  end.

(** [os.path.isdir]. *)
Definition isdir (fs : FS) (s : string) : bool :=
  bool_decide (s ≠ "") &&
  bool_decide (node_at (tree fs) (resolve fs s) = Some Dir).

Definition isfile (fs : FS) (s : string) : bool :=
  bool_decide (s ≠ "") &&
  match node_at (tree fs) (resolve fs s) with
  | Some (File _) => true
  | _ => false
  end.

(** Make [p] a directory, creating the missing ancestors; fails when a
    file is in the way. *)
Fixpoint mkdir_p (t : gmap (list string) node) (p : list string)
    : option (gmap (list string) node) :=
  match p with
  | [] => Some t
  | _ :: parent =>
      match mkdir_p t parent with
      | None => None
      | Some t' =>
          match t' !! p with
          | Some Dir => Some t'
          | Some (File _) => None
          | None => Some (<[p := Dir]> t')
          end
      end
  end.

(** [os.makedirs]: the leaf must not exist. *)
Definition makedirs (fs : FS) (s : string) : outcome unit * FS :=
  if bool_decide (s = "") then (Raise (Exn OSError ["No such file or directory"; s]), fs)
  else
    let p := resolve fs s in
    match node_at (tree fs) p with
    | Some _ => (Raise (Exn OSError ["File exists"; s]), fs)
    | None =>
        match mkdir_p (tree fs) p with
        | Some t' => (Ok (), {| cwd := cwd fs; tree := t' |})
        | None => (Raise (Exn OSError ["Not a directory"; s]), fs)
        end
    end.

(** The tree after writing [data] to the file at [p], when the file can
    be created or truncated there. *)
Definition put_file (t : gmap (list string) node) (p : list string) (data : string)
    : option (gmap (list string) node) :=
  match p with
  | [] => None
  | _ :: parent =>
      match node_at t parent, t !! p with
      | Some Dir, (None | Some (File _)) => Some (<[p := File data]> t)
      | _, _ => None
      end
  end.

(** [open(s, "wb")] followed by [write(data)]. *)
Definition write_file (fs : FS) (s : string) (data : string) : outcome unit * FS :=
  if bool_decide (s = "") then (Raise (Exn IOError ["No such file or directory"; s]), fs)
  else
    match put_file (tree fs) (resolve fs s) data with
    | Some t' => (Ok (), {| cwd := cwd fs; tree := t' |})
    | None => (Raise (Exn IOError ["cannot open for writing"; s]), fs)
    end.

(** [open(s, "rb")] followed by [read()]. *)
Definition read_file (fs : FS) (s : string) : outcome string :=
  if bool_decide (s = "") then Raise (Exn IOError ["No such file or directory"; s])
  else
    match node_at (tree fs) (resolve fs s) with
    | Some (File data) => Ok data
    | Some Dir => Raise (Exn IOError ["Is a directory"; s])
    | None => Raise (Exn IOError ["No such file or directory"; s])
    end.

(** The names of the entries of directory [p] that are not directories. *)
Definition dir_files (t : gmap (list string) node) (p : list string) : gset string :=
  list_to_set
    (omap (λ kv : list string * node,
             match kv with
             | (n :: q, File _) => if decide (q = p) then Some n else None
             | _ => None
             end)
          (map_to_list t)).

(** [next(os.walk(s))[2]]: [os.walk] yields nothing when [s] cannot be
    listed, and [next] then raises [StopIteration]. *)
Definition walk_files (fs : FS) (s : string) : outcome (gset string) :=
  if isdir fs s then Ok (dir_files (tree fs) (resolve fs s))
  else Raise (Exn StopIteration []).

End fs_ops.

(** ** Python values, the object store and the world

    Program objects are mutable and passed by reference: they live in an
    object store, a reference being an index into it.  A block handle
    obtained by [program.global_block()] is the reference of its
    program.  Variables are read, never written, by the module and are
    held by value. *)

#[warnings="-register-all"]
Inductive PyVal :=
| PyNone
| PyBool (b : bool)
| PyInt (z : Z)
| PyStr (s : string)
| PyList (l : list PyVal)
| PyVar (v : Var)
| PyProgram (r : nat)
| PyEvaluator (states metrics : list Var).

(** [bool(x)]. *)
Definition truthy (x : PyVal) : bool :=
  match x with
  | PyNone => false
  | PyBool b => b
  | PyInt z => bool_decide (z ≠ 0%Z)
  | PyStr s => bool_decide (s ≠ "")
  | PyList l => bool_decide (l ≠ [])
  | PyVar _ | PyProgram _ | PyEvaluator _ _ => true
  end.

Definition chars (s : string) : list PyVal :=
  (λ c, PyStr (String c EmptyString)) <$> list_ascii_of_string s.

(** [iter(x)], run to the end. *)
Definition py_iter (x : PyVal) : outcome (list PyVal) :=
  match x with
  | PyList l => Ok l
  | PyStr s => Ok (chars s)
  | _ => Raise (Exn TypeError ["object is not iterable"])
  end.

Definition is_basestring (x : PyVal) : bool :=
  match x with PyStr _ => true | _ => false end.
(** [isinstance(x, Variable)]; a [Parameter] is a [Variable]. *)
Definition is_Variable (x : PyVal) : bool :=
  match x with PyVar _ => true | _ => false end.
(** [isinstance(x, Program)]. *)
Definition is_Program (x : PyVal) : bool :=
  match x with PyProgram _ => true | _ => false end.

(** A call of [executor.run]: the program object and its contents at the
    call. *)
Record World := mkWorld {
  heap : list Program;
  main_program_ : nat;
  fs : FS;
  runs : list (nat * Program)
}.

#[global] Instance Program_inhabited : Inhabited Program := populate Program_new.

(** Computations of the module: they may raise, and keep the effects
    made before the raise. *)
Definition M (A : Type) : Type := World → outcome A * World.

#[global] Instance M_ret : MRet M := λ A a w, (Ok a, w).
#[global] Instance M_bind : MBind M := λ A B k m w,
  match m w with
  | (Ok a, w') => k a w'
  | (Raise e, w') => (Raise e, w')
  end.

Definition raise {A} (c : exn_class) (args : list string) : M A :=
  λ w, (Raise (Exn c args), w).

Definition lift {A} (o : outcome A) : M A := λ w, (o, w).

Fixpoint for_each {A} (l : list A) (body : A → M unit) : M unit :=
  match l with
  | [] => mret ()
  | x :: l' => body x;; for_each l' body
  end.

(** [enumerate(l)]. *)
Definition enumerate {A} (l : list A) : list (nat * A) := imap pair l.

Definition set_heap (h : list Program) (w : World) : World :=
  {| heap := h; main_program_ := main_program_ w; fs := fs w; runs := runs w |}.
Definition set_fs (f : FS) (w : World) : World :=
  {| heap := heap w; main_program_ := main_program_ w; fs := f; runs := runs w |}.

(** Allocation of a program object. *)
Definition alloc_Program (p : Program) : M nat :=
  λ w, (Ok (length (heap w)), set_heap (heap w ++ [p]) w).

Definition get_Program (r : nat) : M Program :=
  λ w, (Ok (heap w !!! r), w).

Definition modify_global_block (r : nat) (f : Block → Block) : M unit :=
  λ w, (Ok (), set_heap (alter (λ p, set_global_block p (f (global_block p))) r (heap w)) w).

(** [default_main_program()]: the framework's global main program. *)
Definition default_main_program : M PyVal :=
  λ w, (Ok (PyProgram (main_program_ w)), w).

(** Block methods on a handle. *)
Definition Block_create_var_ (blk : nat) (nm : string) (sh : option (list Z))
    (dt : option string) (ty : VarType) (ll : option nat) (pers : bool) : M Var :=
  p ← get_Program blk;
  let '(v, b') := create_var (global_block p) nm sh dt ty ll pers in
  modify_global_block blk (λ _, b');;
  mret v.

Definition Block_append_op_ (blk : nat) (o : Operator) : M unit :=
  modify_global_block blk (λ b, append_op b o).

Definition Block_prepend_op_ (blk : nat) (o : Operator) : M unit :=
  modify_global_block blk (λ b, prepend_op b o).

Definition Block_var_ (blk : nat) (nm : string) : M Var :=
  p ← get_Program blk; lift (Block_var (global_block p) nm).

(** ** The executor

    The executor is injected by the caller: a function from the program
    it is given and the file system to an outcome and the file system it
    leaves. *)
Definition Executor : Type := Program → FS → outcome unit * FS.

Definition Executor_run (executor : Executor) (program : nat) : M unit :=
  λ w,
    let p := heap w !!! program in
    let '(o, fs') := executor p (fs w) in
    (o, {| heap := heap w; main_program_ := main_program_ w; fs := fs';
           runs := runs w ++ [(program, p)] |}).

Definition os_path_isdir (s : string) : M bool := λ w, (Ok (fs_ops.isdir (fs w) s), w).
Definition os_makedirs (s : string) : M unit :=
  λ w, let '(o, f) := fs_ops.makedirs (fs w) s in (o, set_fs f w).
Definition write_file (s data : string) : M unit :=
  λ w, let '(o, f) := fs_ops.write_file (fs w) s data in (o, set_fs f w).
Definition read_file (s : string) : M string :=
  λ w, (fs_ops.read_file (fs w) s, w).
Definition walk_files (s : string) : M (gset string) :=
  λ w, (fs_ops.walk_files (fs w) s, w).

(** ** The module [io.py] *)

Definition is_parameter (var : Var) : bool :=
  bool_decide (var_cls var = cls_Parameter).

Definition is_persistable (var : Var) : bool := persistable var.

Definition _clone_var_in_block_ (block : nat) (var : PyVal) : M Var :=
  match var with
  | PyVar var =>
      Block_create_var_ block (name var) (shape var) (dtype var) (type var)
        (lod_level var) true
  | _ => raise AssertionError []
  end.

(** [filter(predicate, l)]: without a predicate the truthy elements are
    kept, and every variable object is. *)
Definition selected (predicate : option (Var → bool)) (l : list Var) : list Var :=
  match predicate with
  | Some p => filter (λ v, p v = true) l
  | None => l
  end.

Definition py_filter (predicate : option (Var → bool)) (l : list Var) : PyVal :=
  PyList (PyVar <$> selected predicate l).

Definition save_op (dirname : string) (new_var : Var) : Operator :=
  {| op_type := "save";
     op_inputs := [("X", [name new_var])];
     op_outputs := [];
     op_attrs := [("file_path", AttrStr (os_path.join dirname (name new_var)))] |}.

Definition load_op (dirname : string) (new_var : Var) : Operator :=
  {| op_type := "load";
     op_inputs := [];
     op_outputs := [("Out", [name new_var])];
     op_attrs := [("file_path", AttrStr (os_path.join dirname (name new_var)))] |}.

(** The branch of [save_vars] taken when [vars] is given. *)
Definition save_vars_given (executor : Executor) (dirname : string) (vars : PyVal)
    : M unit :=
  save_program ← alloc_Program Program_new;
  let save_block := save_program in
  l ← lift (py_iter vars);
  for_each l (λ each_var,
    new_var ← _clone_var_in_block_ save_block each_var;
    Block_append_op_ save_block (save_op dirname new_var));;
  Executor_run executor save_program.

Definition save_vars (executor : Executor) (dirname : string)
    (main_program : PyVal) (vars : PyVal) (predicate : option (Var → bool))
    : M unit :=
  match vars with
  | PyNone =>
      main_program ← match main_program with
                     | PyNone => default_main_program
                     | _ => mret main_program
                     end;
      match main_program with
      | PyProgram r =>
          p ← get_Program r;
          save_vars_given executor dirname (py_filter predicate (list_vars p))
      | _ => raise TypeError ["program should be as Program type or None"]
      end
  | _ => save_vars_given executor dirname vars
  end.

Definition save_params (executor : Executor) (dirname : string)
    (main_program : PyVal) : M unit :=
  save_vars executor dirname main_program PyNone (Some is_parameter).

Definition save_persistables (executor : Executor) (dirname : string)
    (main_program : PyVal) : M unit :=
  save_vars executor dirname main_program PyNone (Some is_persistable).

(** The branch of [load_vars] taken when [vars] is given. *)
Definition load_vars_given (executor : Executor) (dirname : string) (vars : PyVal)
    : M unit :=
  load_prog ← alloc_Program Program_new;
  let load_block := load_prog in
  l ← lift (py_iter vars);
  for_each l (λ each_var,
    (if is_Variable each_var then mret () else raise AssertionError []);;
    new_var ← _clone_var_in_block_ load_block each_var;
    Block_append_op_ load_block (load_op dirname new_var));;
  Executor_run executor load_prog.

Definition load_vars (executor : Executor) (dirname : string)
    (main_program : PyVal) (vars : PyVal) (predicate : option (Var → bool))
    : M unit :=
  match vars with
  | PyNone =>
      main_program ← match main_program with
                     | PyNone => default_main_program
                     | _ => mret main_program
                     end;
      match main_program with
      | PyProgram r =>
          p ← get_Program r;
          load_vars_given executor dirname (py_filter predicate (list_vars p))
      | _ => raise TypeError ["program's type should be Program"]
      end
  | _ => load_vars_given executor dirname vars
  end.

Definition load_params (executor : Executor) (dirname : string)
    (main_program : PyVal) : M unit :=
  load_vars executor dirname main_program PyNone (Some is_parameter).

Definition load_persistables (executor : Executor) (dirname : string)
    (main_program : PyVal) : M unit :=
  load_vars executor dirname main_program PyNone (Some is_persistable).

Definition feed_op (feed_var out : Var) (i : nat) : Operator :=
  {| op_type := "feed";
     op_inputs := [("X", [name feed_var])];
     op_outputs := [("Out", [name out])];
     op_attrs := [("col", AttrInt i)] |}.

Definition fetch_op (nm fetch_var_name : string) (i : nat) : Operator :=
  {| op_type := "fetch";
     op_inputs := [("X", [nm])];
     op_outputs := [("Out", [fetch_var_name])];
     op_attrs := [("col", AttrInt i)] |}.

Definition prepend_feed_ops (inference_program : nat)
    (feed_target_names : list string) (feed_holder_name : string) : M unit :=
  let global_block := inference_program in
  feed_var ← Block_create_var_ global_block feed_holder_name None None
                FEED_MINIBATCH None true;
  for_each (enumerate feed_target_names) (λ '(i, nm),
    out ← Block_var_ global_block nm;
    Block_prepend_op_ global_block (feed_op feed_var out i)).

Definition append_fetch_ops (inference_program : nat)
    (fetch_target_names : list string) (fetch_holder_name : string) : M unit :=
  let global_block := inference_program in
  fetch_var ← Block_create_var_ global_block fetch_holder_name None None
                 FETCH_LIST None true;
  for_each (enumerate fetch_target_names) (λ '(i, nm),
    Block_append_op_ global_block (fetch_op nm (name fetch_var) i)).

(** The body of the loop of [get_feed_targets_names]:
    [feed_targets_names.insert(0, op.desc.output('Out')[0])] on a [feed]
    operator. *)
Definition feed_names_step (acc : outcome (list string)) (op : Operator)
    : outcome (list string) :=
  feed_targets_names ← acc;
  if bool_decide (op_type op = "feed")
  then x ← py_first (desc_output op "Out"); mret (x :: feed_targets_names)
  else mret feed_targets_names.

Definition get_feed_targets_names_of (p : Program) : outcome (list string) :=
  foldl feed_names_step (mret []) (ops (global_block p)).

Definition get_feed_targets_names (program : nat) : M (list string) :=
  p ← get_Program program; lift (get_feed_targets_names_of p).

(** The body of the loop of [get_fetch_targets_names]:
    [fetch_targets_names.append(op.desc.input('X')[0])] on a [fetch]
    operator. *)
Definition fetch_names_step (acc : outcome (list string)) (op : Operator)
    : outcome (list string) :=
  fetch_targets_names ← acc;
  if bool_decide (op_type op = "fetch")
  then x ← py_first (desc_input op "X"); mret (fetch_targets_names ++ [x])%list
  else mret fetch_targets_names.

Definition get_fetch_targets_names_of (p : Program) : outcome (list string) :=
  foldl fetch_names_step (mret []) (ops (global_block p)).

Definition get_fetch_targets_names (program : nat) : M (list string) :=
  p ← get_Program program; lift (get_fetch_targets_names_of p).

Definition load_persistables_if_exist (executor : Executor) (dirname : string)
    (main_program : PyVal) : M unit :=
  filenames ← walk_files dirname;
  let _is_presistable_and_exist_ (var : Var) : bool :=
    if negb (is_persistable var) then false
    else bool_decide (name var ∈ filenames) in
  load_vars executor dirname main_program PyNone (Some _is_presistable_and_exist_).

Fixpoint map_M {A B} (f : A → M B) (l : list A) : M (list B) :=
  match l with
  | [] => mret []
  | x :: l' => y ← f x; ys ← map_M f l'; mret (y :: ys)
  end.

(** [all(isinstance(e, cls) for e in x)]. *)
Definition py_all (is_cls : PyVal → bool) (x : PyVal) : outcome bool :=
  l ← py_iter x; mret (forallb is_cls l).

(** The strings, resp. the variables, of a list of Python values. *)
Definition py_strs (l : list PyVal) : list string :=
  omap (λ x, match x with PyStr s => Some s | _ => None end) l.
Definition py_vars (l : list PyVal) : list Var :=
  omap (λ x, match x with PyVar v => Some v | _ => None end) l.

Section Inference.

(** The framework methods behind the inference program, taken as
    parameters: [Program.prune], [Program.inference_optimize],
    [ProgramDesc.serialize_to_string] and [Program.parse_from_string]. *)
Variable prune : Program → list PyVal → outcome Program.
Variable inference_optimize : Program → outcome Program.
Variable serialize_to_string : Program → string.
Variable parse_from_string : string → outcome Program.

(** [main_program.prune(targets=...)]: a new program object. *)
Definition Program_prune (main_program : PyVal) (targets : list PyVal) : M nat :=
  match main_program with
  | PyProgram r =>
      p ← get_Program r; q ← lift (prune p targets); alloc_Program q
  | _ => raise AttributeError ["object has no attribute 'prune'"]
  end.

(** [pruned_program.inference_optimize()]: a new program object. *)
Definition Program_inference_optimize (pruned_program : nat) : M nat :=
  p ← get_Program pruned_program;
  q ← lift (inference_optimize p);
  alloc_Program q.

Definition Program_parse_from_string (s : string) : M nat :=
  q ← lift (parse_from_string s); alloc_Program q.

Definition get_inference_program (target_vars : PyVal) (main_program : PyVal)
    : M nat :=
  main_program ← match main_program with
                 | PyNone => default_main_program
                 | _ => mret main_program
                 end;
  let target_vars := match target_vars with
                     | PyList l => l
                     | _ => [target_vars]
                     end in
  let vars : list PyVal :=
    var ← target_vars;
    match var with
    | PyEvaluator states metrics =>
        ((PyVar <$> states) ++ (PyVar <$> metrics))%list
    | _ => [var]
    end in
  pruned_program ← Program_prune main_program vars;
  inference_program ← Program_inference_optimize pruned_program;
  mret inference_program.

Definition save_inference_model (dirname : string)
    (feeded_var_names target_vars : PyVal) (executor : Executor)
    (main_program : PyVal) : M unit :=
  feeded_var_names ←
    (if is_basestring feeded_var_names then mret [feeded_var_names]
     else
       ok ← lift (if truthy feeded_var_names
                  then py_all is_basestring feeded_var_names else Ok false);
       if negb ok
       then raise ValueError ["'feed_var_names' should be a list of str."]
       else lift (py_iter feeded_var_names));
  target_vars ←
    (if is_Variable target_vars then mret [target_vars]
     else
       ok ← lift (if truthy target_vars
                  then py_all is_Variable target_vars else Ok false);
       if negb ok
       then raise ValueError ["'target_vars' should be a list of Variable."]
       else lift (py_iter target_vars));
  main_program ← match main_program with
                 | PyNone => default_main_program
                 | _ => mret main_program
                 end;
  isd ← os_path_isdir dirname;
  (if negb isd then os_makedirs dirname else mret ());;
  pruned_program ← Program_prune main_program target_vars;
  inference_program ← Program_inference_optimize pruned_program;
  let fetch_var_names := name <$> py_vars target_vars in
  prepend_feed_ops inference_program (py_strs feeded_var_names) "feed";;
  append_fetch_ops inference_program fetch_var_names "fetch";;
  let model_file_name := dirname ++ "/__model__" in
  p ← get_Program inference_program;
  write_file model_file_name (serialize_to_string p);;
  save_params executor dirname main_program.

Definition load_inference_model (dirname : string) (executor : Executor)
    : M (nat * list string * list Var) :=
  isd ← os_path_isdir dirname;
  (if negb isd
   then raise ValueError ["There is no directory named '%s'"; dirname]
   else mret ());;
  let model_file_name := dirname ++ "/__model__" in
  program_desc_str ← read_file model_file_name;
  program ← Program_parse_from_string program_desc_str;
  load_persistables_if_exist executor dirname (PyProgram program);;
  feed_target_names ← get_feed_targets_names program;
  fetch_target_names ← get_fetch_targets_names program;
  fetch_targets ← map_M (Block_var_ program) fetch_target_names;
  mret (program, feed_target_names, fetch_targets).

End Inference.

(** ** A reference executor

    Modelled from the spec: the executor and the [save] and [load]
    operators are missing from the verified file; by the spec a
    persistable variable is written to disk as a named file.  The
    reference executor runs the operators of the global block in order:
    a [save] operator writes the tensor of its input variable to the file
    at [file_path], creating the directories on the way, a [load]
    operator reads the file at [file_path] and fails when it cannot, and
    the other operators leave the file system alone. *)

Definition attr_lookup (attrs : list (string * Attr)) (k : string) : option Attr :=
  snd <$> (snd <$> list_find (λ kv, kv.1 = k) attrs).

Definition run_op (tensor : string → string) (f : FS) (o : Operator)
    : outcome unit * FS :=
  if bool_decide (op_type o = "save") then
    match attr_lookup (op_attrs o) "file_path", desc_input o "X" with
    | Some (AttrStr path), nm :: _ =>
        let p := fs_ops.resolve f path in
        match t ← fs_ops.mkdir_p (tree f) (tail p); fs_ops.put_file t p (tensor nm) with
        | Some t' =>
            if bool_decide (path = "")
            then (Raise (Exn EnforceNotMet ["cannot write"; path]), f)
            else (Ok (), {| cwd := cwd f; tree := t' |})
        | None => (Raise (Exn EnforceNotMet ["cannot write"; path]), f)
        end
    | _, _ => (Raise (Exn EnforceNotMet ["save: bad operator"]), f)
    end
  else if bool_decide (op_type o = "load") then
    match attr_lookup (op_attrs o) "file_path" with
    | Some (AttrStr path) =>
        match fs_ops.read_file f path with
        | Ok _ => (Ok (), f)
        | Raise _ => (Raise (Exn EnforceNotMet ["cannot read"; path]), f)
        end
    | _ => (Raise (Exn EnforceNotMet ["load: bad operator"]), f)
    end
  else (Ok (), f).

Fixpoint run_ops (tensor : string → string) (f : FS) (l : list Operator)
    : outcome unit * FS :=
  match l with
  | [] => (Ok (), f)
  | o :: l' =>
      match run_op tensor f o with
      | (Ok _, f') => run_ops tensor f' l'
      | (Raise e, f') => (Raise e, f')
      end
  end.

Definition fluid_executor (tensor : string → string) : Executor :=
  λ p f, run_ops tensor f (ops (global_block p)).

Local Open Scope list_scope.

(** ** Specification-level descriptions

    What the claims say the module builds, written without the object
    store: the clone of a variable, and the throwaway program holding
    one operator per variable. *)

Definition clone_of (v : Var) : Var :=
  {| var_cls := cls_Variable; name := name v; shape := shape v;
     dtype := dtype v; type := type v; lod_level := lod_level v;
     persistable := true |}.

Definition declare_clones (m : gmap string Var) (vs : list Var) : gmap string Var :=
  foldl (λ m v, <[name v := clone_of v]> m) m vs.

(** The program with the clones of [vs] declared and one operator
    [mk v] per variable, in the order of [vs]. *)
Definition emitted (mk : Var → Operator) (vs : list Var) : Program :=
  {| global_block := {| vars := declare_clones ∅ vs; ops := mk <$> vs |};
     sub_blocks := [] |}.

(** The effect of a call that builds the throwaway program [P] and runs
    the executor on it once. *)
Definition run_fresh (executor : Executor) (P : Program) (w : World)
    : outcome unit * World :=
  (fst (executor P (fs w)),
   {| heap := heap w ++ [P]; main_program_ := main_program_ w;
      fs := snd (executor P (fs w));
      runs := runs w ++ [(length (heap w), P)] |}).

(** The program a call of [save_vars] or [load_vars] with [vars=None]
    reads its variables from. *)
Definition main_ref (main_program : option nat) (w : World) : nat :=
  default (main_program_ w) main_program.

Definition program_of (main_program : option nat) (w : World) : Program :=
  heap w !!! main_ref main_program w.

Definition py_program (main_program : option nat) : PyVal :=
  match main_program with Some r => PyProgram r | None => PyNone end.

(** The call built one fresh program object [Q], left every object that
    existed before as it was, and ran the executor exactly once, on [Q]. *)
Definition throwaway (w w' : World) : Prop :=
  main_program_ w' = main_program_ w
  ∧ ∃ Q, heap w' = heap w ++ [Q]
       ∧ runs w' = runs w ++ [(length (heap w), Q)].

(** The frame of a call, whether it returns or raises: the objects that
    existed before are unchanged and the executor ran at most once, on an
    object created by the call. *)
Definition frame (w w' : World) : Prop :=
  main_program_ w' = main_program_ w
  ∧ (∀ r P, heap w !! r = Some P → heap w' !! r = Some P)
  ∧ (runs w' = runs w
     ∨ ∃ Q, heap w' !! length (heap w) = Some Q
          ∧ runs w' = runs w ++ [(length (heap w), Q)]).

(** The world differs from [w] in the program under construction only. *)
Definition building (h : list Program) (w w' : World) : Prop :=
  (∃ Q, heap w' = h ++ [Q])
  ∧ main_program_ w' = main_program_ w ∧ fs w' = fs w ∧ runs w' = runs w.

(** The holder variable that [prepend_feed_ops] and [append_fetch_ops]
    declare. *)
Definition holder (nm : string) (ty : VarType) : Var :=
  {| var_cls := cls_Variable; name := nm; shape := None; dtype := None;
     type := ty; lod_level := None; persistable := true |}.

#[global] Instance Var_inhabited : Inhabited Var := populate (holder "" LOD_TENSOR).

(** The program with the holder declared and one [feed] operator per
    name in front, the operator of the [i]-th name with column [i]; the
    operator of a later name stands before the one of an earlier name. *)
Definition with_feed_ops (p : Program) (names : list string) (holder_name : string)
    : Program :=
  let m := <[holder_name := holder holder_name FEED_MINIBATCH]> (vars (global_block p)) in
  set_global_block p
    {| vars := m;
       ops := rev (imap (λ i nm, feed_op (holder holder_name FEED_MINIBATCH)
                                   (m !!! nm) i) names)
              ++ ops (global_block p) |}.

(** The program with the holder declared and one [fetch] operator per
    name at the end, in order, the operator of the [i]-th name with
    column [i]. *)
Definition with_fetch_ops (p : Program) (names : list string) (holder_name : string)
    : Program :=
  set_global_block p
    {| vars := <[holder_name := holder holder_name FETCH_LIST]> (vars (global_block p));
       ops := ops (global_block p)
              ++ imap (λ i nm, fetch_op nm holder_name i) names |}.

(** Every variable of the block is declared under its own name. *)
Definition keys_named (b : Block) : Prop :=
  map_Forall (λ k v, name v = k) (vars b).

Definition no_op_of_type (ty : string) (b : Block) : Prop :=
  Forall (λ o, op_type o ≠ ty) (ops b).

(** C9 read to the letter: on every program and every list of names,
    [prepend_feed_ops] followed by [get_feed_targets_names] returns the
    names, and so do [append_fetch_ops] and [get_fetch_targets_names]. *)
Definition feed_fetch_round_trip_on_every_program : Prop :=
  ∀ (w : World) (program : nat) (P : Program) (names : list string),
    heap w !! program = Some P →
    ((prepend_feed_ops program names "feed";;
      get_feed_targets_names program) w).1 = Ok names
    ∧ ((append_fetch_ops program names "fetch";;
        get_fetch_targets_names program) w).1 = Ok names.

(** The kinds of the entries of a file system are kept: what was a
    directory is one, what was a file is a file (its contents may have
    been rewritten), and the working directory is the same. *)
Definition is_dir (t : gmap (list string) node) (p : list string) : Prop :=
  fs_ops.node_at t p = Some Dir.
Definition is_file (t : gmap (list string) node) (p : list string) : Prop :=
  ∃ data, fs_ops.node_at t p = Some (File data).

Definition fs_grows (f f' : FS) : Prop :=
  cwd f' = cwd f
  ∧ ∀ q, (is_dir (tree f) q → is_dir (tree f') q)
       ∧ (is_file (tree f) q → is_file (tree f') q).

(** The inference program [save_inference_model] serializes, from the
    optimized pruned program [g]. *)
Definition with_markers (g : Program) (feed_names fetch_names : list string)
    : Program :=
  with_fetch_ops (with_feed_ops g feed_names "feed") fetch_names "fetch".

Definition declared_or_holder (g : Program) (nm : string) : Prop :=
  is_Some (<["feed"%string := holder "feed" FEED_MINIBATCH]> (vars (global_block g)) !! nm).

(** The targets [get_inference_program] prunes for: an [Evaluator] stands
    for its states and metrics, and a target that is not a list for the
    list holding it. *)
Definition expand_targets (target_vars : PyVal) : list PyVal :=
  var ← match target_vars with PyList l => l | _ => [target_vars] end;
  match var with
  | PyEvaluator states metrics => (PyVar <$> states) ++ (PyVar <$> metrics)
  | _ => [var]
  end.

(** C1 read to the letter: after [save_inference_model] has returned,
    every persistable variable of the program has its file in the model
    directory. *)
Definition every_persistable_variable_saved : Prop :=
  ∀ (prune : Program → list PyVal → outcome Program)
    (inference_optimize : Program → outcome Program)
    (serialize_to_string : Program → string) (tensor : string → string)
    (dirname : string) (names : list string) (tvs : list Var)
    (mp : option nat) (w : World),
    let call := save_inference_model prune inference_optimize serialize_to_string
                  dirname (PyList (PyStr <$> names)) (PyList (PyVar <$> tvs))
                  (fluid_executor tensor) (py_program mp) w in
    main_ref mp w < length (heap w) →
    call.1 = Ok () →
    ∀ v, v ∈ list_vars (program_of mp w) → persistable v = true →
         fs_ops.isfile (fs call.2) (os_path.join dirname (name v)) = true.

(** Every entry of the file system is reached by plain file names. *)
Definition wf_fs (f : FS) : Prop :=
  map_Forall (λ (p : list string) (_ : node),
                Forall (λ n, os_path.plain_name n = true) p) (tree f).

(** The variables [load_persistables_if_exist] loads: the persistable
    ones whose name is the name of a file of the directory. *)
Definition persistable_and_present (present : gset string) (l : list Var) : list Var :=
  filter (λ v, persistable v = true ∧ name v ∈ present) l.




(** ** A reference framework and a small network

    Modelled from the spec: [Program.prune] is missing; by the spec the
    inference graph is the pruned subgraph retaining only the operators
    needed to compute the specified outputs.  The reference keeps, going
    backwards, the operators that write a needed variable, their inputs
    becoming needed.  It and the other reference methods instantiate the
    parameters of section [Inference] in the worked cases. *)

Definition op_input_names (o : Operator) : list string := concat (snd <$> op_inputs o).
Definition op_output_names (o : Operator) : list string := concat (snd <$> op_outputs o).

Fixpoint prune_ops (rev_ops : list Operator) (needed : gset string) : list Operator :=
  match rev_ops with
  | [] => []
  | o :: rest =>
      if existsb (λ n, bool_decide (n ∈ needed)) (op_output_names o)
      then prune_ops rest (needed ∪ list_to_set (op_input_names o)) ++ [o]
      else prune_ops rest needed
  end.

Definition reference_prune (p : Program) (targets : list PyVal) : outcome Program :=
  if forallb is_Variable targets
  then Ok {| global_block :=
               {| vars := vars (global_block p);
                  ops := prune_ops (rev (ops (global_block p)))
                           (list_to_set (name <$> py_vars targets)) |};
             sub_blocks := sub_blocks p |}
  else Raise (Exn ValueError ["All targets of prune() can only be Variable or Operator."]).

Definition reference_inference_optimize (p : Program) : outcome Program := Ok p.

(** A stand-in for the binary description: the operator types in order. *)
Definition reference_serialize (p : Program) : string :=
  String.concat ";" (op_type <$> ops (global_block p)).

(** The network [y = mul(x, fc_0.w_0)], with an optimizer step on the
    weight; the weight is a [Parameter], the learning rate a persistable
    variable that is not. *)
Definition ex_var (c : var_class) (nm : string) (pers : bool) : Var :=
  {| var_cls := c; name := nm; shape := Some [1%Z]; dtype := Some "float32"%string;
     type := LOD_TENSOR; lod_level := Some 0; persistable := pers |}.

Definition ex_w : Var := ex_var cls_Parameter "fc_0.w_0" true.
Definition ex_lr : Var := ex_var cls_Variable "learning_rate" true.
Definition ex_x : Var := ex_var cls_Variable "x" false.
Definition ex_y : Var := ex_var cls_Variable "y" false.

Definition ex_mul : Operator :=
  {| op_type := "mul"; op_inputs := [("X", ["x"]); ("Y", ["fc_0.w_0"])]%string;
     op_outputs := [("Out", ["y"])]%string; op_attrs := [] |}.
Definition ex_sgd : Operator :=
  {| op_type := "sgd";
     op_inputs := [("Param", ["fc_0.w_0"]); ("LearningRate", ["learning_rate"])]%string;
     op_outputs := [("ParamOut", ["fc_0.w_0"])]%string; op_attrs := [] |}.

Definition ex_main : Program :=
  {| global_block :=
       {| vars := list_to_map ((λ v, (name v, v)) <$> [ex_w; ex_lr; ex_x; ex_y]);
          ops := [ex_mul; ex_sgd] |};
     sub_blocks := [] |}.

(** The world holding the network as the default main program, an empty
    file system with working directory [/home], and no executor call. *)
Definition ex_world : World :=
  {| heap := [ex_main]; main_program_ := 0;
     fs := {| cwd := ["home"%string]; tree := {[ ["home"%string] := Dir ]} |};
     runs := [] |}.

Definition ex_executor : Executor :=
  fluid_executor (λ nm, ("tensor:" ++ nm)%string).

(** The parser of the worked cases knows one description, the one of the
    example's inference program. *)
Definition ex_inference : Program :=
  {| global_block :=
       {| vars := list_to_map ((λ v, (name v, v)) <$>
                    [ex_w; ex_lr; ex_x; ex_y;
                     {| var_cls := cls_Variable; name := "feed"; shape := None;
                        dtype := None; type := FEED_MINIBATCH; lod_level := None;
                        persistable := true |};
                     {| var_cls := cls_Variable; name := "fetch"; shape := None;
                        dtype := None; type := FETCH_LIST; lod_level := None;
                        persistable := true |}]);
          ops := [feed_op (ex_var cls_Variable "feed" true) ex_x 0; ex_mul;
                  fetch_op "y" "fetch" 0] |};
     sub_blocks := [] |}.

(** The world after the inference program of the network was loaded. *)
Definition ex_world_loaded : World :=
  {| heap := [ex_inference]; main_program_ := 0;
     fs := {| cwd := ["home"%string]; tree := {[ ["home"%string] := Dir ]} |};
     runs := [] |}.

Definition reference_parse (s : string) : outcome Program :=
  if bool_decide (s = "feed;mul;fetch"%string) then Ok ex_inference
  else Raise (Exn ValueError ["cannot parse the program description"%string]).

(** The world after the network was saved into the directory [model]. *)
Definition ex_world_saved : World :=
  (save_inference_model reference_prune reference_inference_optimize
     reference_serialize "model" (PyList (PyStr <$> ["x"%string]))
     (PyList (PyVar <$> [ex_y])) ex_executor (py_program None) ex_world).2.

(** ** The rest of the module: reading a parameter's value

    [executor.run(program, feed={}, fetch_list=[...])] returns the
    fetched values.  The run with a fetch list is injected like the
    plain run: a function from the program, the fetch list and the file
    system to the list of fetched tensors (or an exception) and the file
    system it leaves. *)
Definition FetchExecutor : Type :=
  Program → list Var → FS → outcome (list string) * FS.

Definition Executor_run_fetch (executor : FetchExecutor) (program : nat)
    (fetch_list : list Var) : M (list string) :=
  λ w,
    let p := heap w !!! program in
    let '(o, fs') := executor p fetch_list (fs w) in
    (o, {| heap := heap w; main_program_ := main_program_ w; fs := fs';
           runs := runs w ++ [(program, p)] |}).

(** [isinstance(x, Parameter)] on any Python value. *)
Definition is_Parameter (x : PyVal) : bool :=
  match x with PyVar v => is_parameter v | _ => false end.

Definition get_parameter_value (para : PyVal) (executor : FetchExecutor)
    : M string :=
  (if is_Parameter para then mret () else raise AssertionError []);;
  get_program ← alloc_Program Program_new;
  let block := get_program in
  new_var ← _clone_var_in_block_ block para;
  fetched ← Executor_run_fetch executor get_program [new_var];
  lift (py_first fetched).

Definition get_parameter_value_by_name (nm : string) (executor : FetchExecutor)
    (program : PyVal) : M string :=
  program ← match program with
            | PyNone => default_main_program
            | _ => mret program
            end;
  match program with
  | PyProgram r =>
      var ← Block_var_ r nm;
      get_parameter_value (PyVar var) executor
  | _ => raise AttributeError ["object has no attribute 'global_block'"]
  end.

Local Open Scope list_scope.

(** The program [get_parameter_value] runs: the clone of the parameter
    declared, no operator. *)
Definition fetch_program (v : Var) : Program :=
  {| global_block := {| vars := {[ name v := clone_of v ]}; ops := [] |};
     sub_blocks := [] |}.

(** The first [Out] names of the [feed] operators, and the first [X]
    names of the [fetch] operators, of a list of operators. *)
Definition feed_outs (os : list Operator) : list (list string) :=
  (λ o, desc_output o "Out") <$> filter (λ o, op_type o = "feed"%string) os.
Definition fetch_ins (os : list Operator) : list (list string) :=
  (λ o, desc_input o "X") <$> filter (λ o, op_type o = "fetch"%string) os.

(** A fetch executor for the worked cases: the tensor of each fetched
    variable. *)
Definition ex_fetch_executor : FetchExecutor :=
  λ _ fetch_list f, (Ok ((λ v, ("tensor:" ++ name v)%string) <$> fetch_list), f).


(** The working directory is reached by plain file names. *)
Definition plain_cwd (f : FS) : Prop :=
  Forall (λ n, os_path.plain_name n = true) (cwd f).

(** * Properties *)

(** ** The object store *)

Lemma lookup_total_alloc (h : list Program) (P : Program) :
  (h ++ [P]) !!! length h = P.
Proof.
  apply list_lookup_total_correct. rewrite lookup_app_r by lia.
  by rewrite Nat.sub_diag.
Qed.

Lemma alter_alloc (h : list Program) (P : Program) (f : Program → Program) :
  alter f (length h) (h ++ [P]) = h ++ [f P].
Proof.
  by rewrite <- (Nat.add_0_r (length h)), alter_app_r.
Qed.

Lemma bind_ok {A B} (m : M A) (k : A → M B) w a w' :
  m w = (Ok a, w') → (m ≫= k) w = k a w'.
Proof. intros H. unfold mbind, M_bind. by rewrite H. Qed.

Lemma bind_raise {A B} (m : M A) (k : A → M B) w e w' :
  m w = (Raise e, w') → (m ≫= k) w = (Raise e, w').
Proof. intros H. unfold mbind, M_bind. by rewrite H. Qed.

Lemma set_heap_set_heap h h' w : set_heap h (set_heap h' w) = set_heap h w.
Proof. done. Qed.

Lemma set_heap_id w : set_heap (heap w) w = w.
Proof. by destruct w. Qed.

Lemma get_Program_alloc h P w :
  heap w = h ++ [P] → get_Program (length h) w = (Ok P, w).
Proof. intros Hw. unfold get_Program. by rewrite Hw, lookup_total_alloc. Qed.

Lemma modify_global_block_alloc h P f w :
  heap w = h ++ [P] →
  modify_global_block (length h) f w =
    (Ok (), set_heap (h ++ [set_global_block P (f (global_block P))]) w).
Proof. intros Hw. unfold modify_global_block. by rewrite Hw, alter_alloc. Qed.

(** One turn of the loop of [save_vars] and [load_vars] on the program
    under construction. *)
Lemma for_each_emit (mk : Var → Operator) (body : PyVal → M unit) h vs :
  (∀ v m os w,
      heap w = h ++ [ {| global_block := {| vars := m; ops := os |}; sub_blocks := [] |} ] →
      body (PyVar v) w =
        (Ok (), set_heap (h ++ [ {| global_block :=
                                     {| vars := <[name v := clone_of v]> m;
                                        ops := os ++ [mk v] |};
                                   sub_blocks := [] |} ]) w)) →
  ∀ m os w,
    heap w = h ++ [ {| global_block := {| vars := m; ops := os |}; sub_blocks := [] |} ] →
    for_each (PyVar <$> vs) body w =
      (Ok (), set_heap (h ++ [ {| global_block :=
                                   {| vars := declare_clones m vs;
                                      ops := os ++ (mk <$> vs) |};
                                 sub_blocks := [] |} ]) w).
Proof.
  intros Hbody. induction vs as [|v vs IH]; intros m os w Hw.
  - cbn. rewrite app_nil_r. unfold mret, M_ret. f_equal.
    rewrite <- Hw. by rewrite set_heap_id.
  - cbn [fmap list_fmap for_each]. unfold mbind, M_bind at 1.
    rewrite (Hbody v m os w Hw).
    rewrite (IH (<[name v := clone_of v]> m) (os ++ [mk v])) by done.
    cbn. by rewrite <- app_assoc.
Qed.

Lemma clone_var_alloc v h P w :
  heap w = h ++ [P] →
  _clone_var_in_block_ (length h) (PyVar v) w =
    (Ok (clone_of v),
     set_heap (h ++ [set_global_block P
                       {| vars := <[name v := clone_of v]> (vars (global_block P));
                          ops := ops (global_block P) |}]) w).
Proof.
  intros Hw. unfold _clone_var_in_block_, Block_create_var_.
  erewrite bind_ok by by apply get_Program_alloc.
  cbn [create_var]. erewrite bind_ok by by apply modify_global_block_alloc.
  done.
Qed.

Lemma append_op_alloc o h P w :
  heap w = h ++ [P] →
  Block_append_op_ (length h) o w =
    (Ok (), set_heap (h ++ [set_global_block P (append_op (global_block P) o)]) w).
Proof. apply modify_global_block_alloc. Qed.

Lemma save_body_step dirname v h m os w :
  heap w = h ++ [ {| global_block := {| vars := m; ops := os |}; sub_blocks := [] |} ] →
  (new_var ← _clone_var_in_block_ (length h) (PyVar v);
   Block_append_op_ (length h) (save_op dirname new_var)) w =
    (Ok (), set_heap (h ++ [ {| global_block :=
                                 {| vars := <[name v := clone_of v]> m;
                                    ops := os ++ [save_op dirname v] |};
                               sub_blocks := [] |} ]) w).
Proof.
  intros Hw. erewrite bind_ok by by apply clone_var_alloc.
  erewrite append_op_alloc by done. done.
Qed.

Lemma load_body_step dirname v h m os w :
  heap w = h ++ [ {| global_block := {| vars := m; ops := os |}; sub_blocks := [] |} ] →
  ((if is_Variable (PyVar v) then mret () else raise AssertionError []);;
   new_var ← _clone_var_in_block_ (length h) (PyVar v);
   Block_append_op_ (length h) (load_op dirname new_var)) w =
    (Ok (), set_heap (h ++ [ {| global_block :=
                                 {| vars := <[name v := clone_of v]> m;
                                    ops := os ++ [load_op dirname v] |};
                               sub_blocks := [] |} ]) w).
Proof.
  intros Hw. cbn [is_Variable]. erewrite bind_ok by done.
  erewrite bind_ok by by apply clone_var_alloc.
  erewrite append_op_alloc by done. done.
Qed.

Lemma alloc_Program_eq P w :
  alloc_Program P w = (Ok (length (heap w)), set_heap (heap w ++ [P]) w).
Proof. done. Qed.

(** [save_vars] on a list of variables: the throwaway program is built,
    stored as a fresh object, and run once. *)
Lemma save_vars_given_vars executor dirname vs w :
  save_vars_given executor dirname (PyList (PyVar <$> vs)) w =
    run_fresh executor (emitted (save_op dirname) vs) w.
Proof.
  unfold save_vars_given.
  erewrite bind_ok by apply alloc_Program_eq.
  erewrite bind_ok by done.
  erewrite bind_ok.
  2:{ apply (for_each_emit (save_op dirname) _ (heap w)) with (m := ∅) (os := []); [|done].
      intros. by apply save_body_step. }
  unfold Executor_run, run_fresh. cbn [heap set_heap fs main_program_ runs].
  rewrite lookup_total_alloc. cbn [app]. unfold emitted.
  by destruct (executor _ _).
Qed.

Lemma load_vars_given_vars executor dirname vs w :
  load_vars_given executor dirname (PyList (PyVar <$> vs)) w =
    run_fresh executor (emitted (load_op dirname) vs) w.
Proof.
  unfold load_vars_given.
  erewrite bind_ok by apply alloc_Program_eq.
  erewrite bind_ok by done.
  erewrite bind_ok.
  2:{ apply (for_each_emit (load_op dirname) _ (heap w)) with (m := ∅) (os := []); [|done].
      intros. by apply load_body_step. }
  unfold Executor_run, run_fresh. cbn [heap set_heap fs main_program_ runs].
  rewrite lookup_total_alloc. cbn [app]. unfold emitted.
  by destruct (executor _ _).
Qed.

Lemma save_vars_none executor dirname main_program predicate w :
  save_vars executor dirname (py_program main_program) PyNone predicate w =
    run_fresh executor
      (emitted (save_op dirname)
         (selected predicate (list_vars (program_of main_program w)))) w.
Proof.
  unfold save_vars, py_filter, program_of.
  destruct main_program as [r|]; cbn [py_program default]; cbv beta iota.
  - erewrite bind_ok by done. cbv beta iota. erewrite bind_ok by done.
    apply save_vars_given_vars.
  - erewrite bind_ok by done. cbv beta iota. erewrite bind_ok by done.
    apply save_vars_given_vars.
Qed.

Lemma load_vars_none executor dirname main_program predicate w :
  load_vars executor dirname (py_program main_program) PyNone predicate w =
    run_fresh executor
      (emitted (load_op dirname)
         (selected predicate (list_vars (program_of main_program w)))) w.
Proof.
  unfold load_vars, py_filter, program_of.
  destruct main_program as [r|]; cbn [py_program default]; cbv beta iota.
  - erewrite bind_ok by done. cbv beta iota. erewrite bind_ok by done.
    apply load_vars_given_vars.
  - erewrite bind_ok by done. cbv beta iota. erewrite bind_ok by done.
    apply load_vars_given_vars.
Qed.

(** C3: with [vars=None] the variables are selected by the predicate:
    [save_vars] and [load_vars] run a program holding exactly one save
    (resp. load) operator for each variable of [main_program.list_vars()]
    the predicate accepts, in list order, and none for the others;
    [save_params] and [load_params] select by [is_parameter],
    [save_persistables] and [load_persistables] by [is_persistable]. *)
Theorem vars_selected_by_predicate executor dirname (r : nat) (p : Var → bool) w :
  let main := heap w !!! r in
  let chosen (q : Var → bool) := filter (λ v, q v = true) (list_vars main) in
  let ran (mk : Var → Operator) (q : Var → bool) (w' : World) :=
    ∃ P, runs w' = runs w ++ [(length (heap w), P)]
         ∧ ops (global_block P) = mk <$> chosen q in
  ran (save_op dirname) p (save_vars executor dirname (PyProgram r) PyNone (Some p) w).2
  ∧ ran (load_op dirname) p (load_vars executor dirname (PyProgram r) PyNone (Some p) w).2
  ∧ ran (save_op dirname) is_parameter (save_params executor dirname (PyProgram r) w).2
  ∧ ran (load_op dirname) is_parameter (load_params executor dirname (PyProgram r) w).2
  ∧ ran (save_op dirname) is_persistable (save_persistables executor dirname (PyProgram r) w).2
  ∧ ran (load_op dirname) is_persistable (load_persistables executor dirname (PyProgram r) w).2.
Proof.
  intros main chosen ran.
  assert (Hs : ∀ q, ran (save_op dirname) q
                 (save_vars executor dirname (PyProgram r) PyNone (Some q) w).2).
  { intros q. rewrite (save_vars_none executor dirname (Some r)).
    eexists. split; [reflexivity|done]. }
  assert (Hl : ∀ q, ran (load_op dirname) q
                 (load_vars executor dirname (PyProgram r) PyNone (Some q) w).2).
  { intros q. rewrite (load_vars_none executor dirname (Some r)).
    eexists. split; [reflexivity|done]. }
  unfold save_params, load_params, save_persistables, load_persistables.
  repeat split; auto.
Qed.

(** C4: given a list of variables, [save_vars] builds a program of
    exactly [len(vars)] operators, the one for the variable [v] being a
    [save] of [v.name] whose [file_path] is
    [os.path.join(dirname, v.name)], and runs it once. *)
Theorem save_vars_file_paths executor dirname main_program predicate
    (vs : list Var) w :
  let w' := (save_vars executor dirname main_program (PyList (PyVar <$> vs))
               predicate w).2 in
  ∃ P, runs w' = runs w ++ [(length (heap w), P)]
     ∧ length (ops (global_block P)) = length vs
     ∧ ∀ i v, vs !! i = Some v →
         ∃ o, ops (global_block P) !! i = Some o
            ∧ op_type o = "save"
            ∧ desc_input o "X" = [name v]
            ∧ attr_lookup (op_attrs o) "file_path"
              = Some (AttrStr (os_path.join dirname (name v))).
Proof.
  intros w'. subst w'. cbn [save_vars]. rewrite save_vars_given_vars.
  exists (emitted (save_op dirname) vs). split; [done|]. split.
  - cbn. by rewrite length_fmap.
  - intros i v Hi. exists (save_op dirname v). split.
    + cbn. by rewrite list_lookup_fmap, Hi.
    + done.
Qed.

(** ** The frame of [save_vars] and [load_vars] *)

Lemma building_refl h Q w : heap w = h ++ [Q] → building h w w.
Proof. intros H. split; [by exists Q|done]. Qed.

Lemma building_trans h w1 w2 w3 :
  building h w1 w2 → building h w2 w3 → building h w1 w3.
Proof.
  intros (_ & Hm & Hf & Hr) (HQ & Hm' & Hf' & Hr').
  split; [done|]. by rewrite Hm', Hf', Hr'.
Qed.

Lemma building_set_heap h Q w : building h w (set_heap (h ++ [Q]) w).
Proof. split; [by exists Q|done]. Qed.

Lemma bind_building {A B} h (m : M A) (k : A → M B) w :
  building h w (m w).2 →
  (∀ a w', building h w w' → building h w' (k a w').2) →
  building h w ((m ≫= k) w).2.
Proof.
  intros Hm Hk. unfold mbind, M_bind. destruct (m w) as [[a|e] w1]; [|done].
  eapply building_trans; [exact Hm|]. by apply Hk.
Qed.

Lemma clone_var_building h x w :
  (∃ Q, heap w = h ++ [Q]) →
  building h w (_clone_var_in_block_ (length h) x w).2.
Proof.
  intros [Q HQ]. destruct x; try by (eapply building_refl).
  erewrite clone_var_alloc by done. apply building_set_heap.
Qed.

Lemma append_op_building h o w :
  (∃ Q, heap w = h ++ [Q]) →
  building h w (Block_append_op_ (length h) o w).2.
Proof.
  intros [Q HQ]. erewrite append_op_alloc by done. apply building_set_heap.
Qed.

Lemma for_each_building {A} h (body : A → M unit) l :
  (∀ x w, (∃ Q, heap w = h ++ [Q]) → building h w (body x w).2) →
  ∀ w, (∃ Q, heap w = h ++ [Q]) → building h w (for_each l body w).2.
Proof.
  intros Hbody. induction l as [|x l IH]; intros w [Q HQ].
  - by eapply building_refl.
  - cbn [for_each]. apply bind_building; [apply Hbody; eauto|].
    intros _ w' Hw'. apply IH. apply Hw'.
Qed.

Lemma building_frame_raise w w' :
  building (heap w) (set_heap (heap w ++ [Program_new]) w) w' → frame w w'.
Proof.
  intros ([Q HQ] & Hm & Hf & Hr). split; [done|]. split.
  - intros r P Hr'. rewrite HQ. by apply lookup_app_l_Some.
  - by left.
Qed.

Lemma building_frame_run executor w w' :
  building (heap w) (set_heap (heap w ++ [Program_new]) w) w' →
  frame w (Executor_run executor (length (heap w)) w').2.
Proof.
  intros ([Q HQ] & Hm & Hf & Hr). unfold Executor_run.
  destruct (executor _ _) as [o f']. cbn. split; [done|]. split.
  - intros r P Hr'. rewrite HQ. by apply lookup_app_l_Some.
  - right. exists Q. rewrite HQ, lookup_total_alloc. split; [|by rewrite Hr].
    cbn [heap]. rewrite lookup_app_r by lia. by rewrite Nat.sub_diag.
Qed.

Lemma given_frame executor (body : nat → PyVal → M unit) vars w :
  (∀ x w', (∃ Q, heap w' = heap w ++ [Q]) →
           building (heap w) w' (body (length (heap w)) x w').2) →
  frame w ((prog ← alloc_Program Program_new;
            l ← lift (py_iter vars);
            for_each l (body prog);;
            Executor_run executor prog) w).2.
Proof.
  intros Hbody. erewrite bind_ok by apply alloc_Program_eq.
  set (w1 := set_heap (heap w ++ [Program_new]) w).
  assert (H1 : ∃ Q, heap w1 = heap w ++ [Q]) by by eexists.
  unfold mbind at 1, M_bind at 1, lift.
  destruct (py_iter vars) as [l|e].
  - pose proof (for_each_building (heap w) (body (length (heap w))) l Hbody w1 H1) as Hl.
    unfold mbind, M_bind.
    destruct (for_each l (body (length (heap w))) w1) as [[[]|e] w2]; cbn in Hl.
    + by apply building_frame_run.
    + by apply building_frame_raise.
  - apply building_frame_raise. by eapply building_refl.
Qed.

Lemma save_vars_given_frame executor dirname vars w :
  frame w (save_vars_given executor dirname vars w).2.
Proof.
  apply (given_frame executor
           (λ blk each_var, new_var ← _clone_var_in_block_ blk each_var;
                            Block_append_op_ blk (save_op dirname new_var))).
  intros x w' Hw'. apply bind_building; [by apply clone_var_building|].
  intros v w2 Hw2. apply append_op_building, Hw2.
Qed.

Lemma load_vars_given_frame executor dirname vars w :
  frame w (load_vars_given executor dirname vars w).2.
Proof.
  apply (given_frame executor
           (λ blk each_var,
              (if is_Variable each_var then mret () else raise AssertionError []);;
              new_var ← _clone_var_in_block_ blk each_var;
              Block_append_op_ blk (load_op dirname new_var))).
  intros x w' Hw'. apply bind_building.
  { destruct Hw' as [Q HQ]. destruct (is_Variable x); by eapply building_refl. }
  intros _ w2 Hw2. apply bind_building; [apply clone_var_building, Hw2|].
  intros v w3 Hw3. apply append_op_building, Hw3.
Qed.

Lemma frame_refl w : frame w w.
Proof. split; [done|]. split; [done|by left]. Qed.

Lemma run_fresh_throwaway executor P w : throwaway w (run_fresh executor P w).2.
Proof. split; [done|]. by exists P. Qed.

Lemma throwaway_frame w w' : throwaway w w' → frame w w'.
Proof.
  intros (Hm & Q & HQ & Hr). split; [done|]. split.
  - intros r P Hr'. rewrite HQ. by apply lookup_app_l_Some.
  - right. exists Q. split; [|done]. rewrite HQ.
    rewrite lookup_app_r by lia. by rewrite Nat.sub_diag.
Qed.

Lemma save_vars_frame executor dirname main_program vars predicate w :
  frame w (save_vars executor dirname main_program vars predicate w).2.
Proof.
  destruct vars; try apply save_vars_given_frame.
  destruct main_program; try apply frame_refl.
  - rewrite (save_vars_none executor dirname None).
    apply throwaway_frame, run_fresh_throwaway.
  - rewrite (save_vars_none executor dirname (Some r)).
    apply throwaway_frame, run_fresh_throwaway.
Qed.

Lemma load_vars_frame executor dirname main_program vars predicate w :
  frame w (load_vars executor dirname main_program vars predicate w).2.
Proof.
  destruct vars; try apply load_vars_given_frame.
  destruct main_program; try apply frame_refl.
  - rewrite (load_vars_none executor dirname None).
    apply throwaway_frame, run_fresh_throwaway.
  - rewrite (load_vars_none executor dirname (Some r)).
    apply throwaway_frame, run_fresh_throwaway.
Qed.

(** C7: the save and load operators go into a throwaway program.  On a
    call with [vars=None] and a program (or [None]) for [main_program],
    and on a call with a list of variables, [save_vars] and [load_vars]
    create one fresh program, run the executor exactly once, on it, and
    leave every object that existed before, the caller's
    [main_program] among them, unchanged; on every call, failing ones
    included, the objects that existed are unchanged and the executor
    runs at most once, on a program the call created. *)
Theorem operators_go_into_throwaway_program executor dirname predicate w :
  (∀ main_program : option nat,
     throwaway w (save_vars executor dirname (py_program main_program)
                    PyNone predicate w).2
     ∧ throwaway w (load_vars executor dirname (py_program main_program)
                      PyNone predicate w).2)
  ∧ (∀ main_program (vs : list Var),
       throwaway w (save_vars executor dirname main_program
                      (PyList (PyVar <$> vs)) predicate w).2
       ∧ throwaway w (load_vars executor dirname main_program
                        (PyList (PyVar <$> vs)) predicate w).2)
  ∧ (∀ main_program vars,
       frame w (save_vars executor dirname main_program vars predicate w).2
       ∧ frame w (load_vars executor dirname main_program vars predicate w).2).
Proof.
  split; [|split].
  - intros mp. rewrite save_vars_none, load_vars_none.
    split; apply run_fresh_throwaway.
  - intros mp vs. cbn [save_vars load_vars].
    rewrite save_vars_given_vars, load_vars_given_vars.
    split; apply run_fresh_throwaway.
  - intros mp vars. split; [apply save_vars_frame|apply load_vars_frame].
Qed.

(** ** Argument checks *)

(** C5: with [vars=None], a [main_program] that is neither [None] nor a
    [Program] makes [save_vars] and [load_vars] raise [TypeError] with
    the world as it was: no program is created, no operator emitted, the
    executor not invoked.  With [main_program=None] the call is the one
    on [default_main_program()], and its outcome is the executor's on
    the program built from it: the check raises nothing. *)
Theorem main_program_type_checked executor dirname (main_program : PyVal)
    predicate w :
  main_program ≠ PyNone →
  is_Program main_program = false →
  save_vars executor dirname main_program PyNone predicate w
    = (Raise (Exn TypeError ["program should be as Program type or None"]), w)
  ∧ load_vars executor dirname main_program PyNone predicate w
    = (Raise (Exn TypeError ["program's type should be Program"]), w)
  ∧ save_vars executor dirname PyNone PyNone predicate w
    = save_vars executor dirname (PyProgram (main_program_ w)) PyNone predicate w
  ∧ load_vars executor dirname PyNone PyNone predicate w
    = load_vars executor dirname (PyProgram (main_program_ w)) PyNone predicate w
  ∧ (∃ P, save_vars executor dirname PyNone PyNone predicate w
          = run_fresh executor P w
        ∧ ops (global_block P)
          = save_op dirname <$> selected predicate (list_vars (heap w !!! main_program_ w)))
  ∧ (∃ P, load_vars executor dirname PyNone PyNone predicate w
          = run_fresh executor P w
        ∧ ops (global_block P)
          = load_op dirname <$> selected predicate (list_vars (heap w !!! main_program_ w))).
Proof.
  intros Hnone Hprog.
  split; [|split]; [by destruct main_program..|].
  rewrite (save_vars_none executor dirname None),
    (save_vars_none executor dirname (Some (main_program_ w))),
    (load_vars_none executor dirname None),
    (load_vars_none executor dirname (Some (main_program_ w))).
  split; [done|]. split; [done|].
  split; eexists; (split; [reflexivity|done]).
Qed.

(** C5 on the network: a string for [main_program] is refused. *)
Lemma main_program_type_checked_witness :
  save_vars ex_executor "model" (PyStr "main") PyNone (Some is_parameter) ex_world
    = (Raise (Exn TypeError ["program should be as Program type or None"]), ex_world)
  ∧ load_vars ex_executor "model" (PyStr "main") PyNone (Some is_parameter) ex_world
    = (Raise (Exn TypeError ["program's type should be Program"]), ex_world).
Proof.
  pose proof (main_program_type_checked ex_executor "model" (PyStr "main")
                (Some is_parameter) ex_world) as H.
  destruct H as (Hs & Hl & _); [discriminate|reflexivity|].
  exact (conj Hs Hl).
Defined.

Section InferenceProperties.

Variable prune : Program → list PyVal → outcome Program.
Variable inference_optimize : Program → outcome Program.
Variable serialize_to_string : Program → string.
Variable parse_from_string : string → outcome Program.

Local Abbreviation save_inference_model' :=
  (save_inference_model prune inference_optimize serialize_to_string).










End InferenceProperties.


(** ** Feed and fetch markers *)

Lemma get_Program_at r P w : heap w !! r = Some P → get_Program r w = (Ok P, w).
Proof.
  intros H. unfold get_Program. by rewrite (list_lookup_total_correct _ _ _ H).
Qed.

Lemma modify_global_block_at r P f w :
  heap w !! r = Some P →
  modify_global_block r f w =
    (Ok (), set_heap (<[r := set_global_block P (f (global_block P))]> (heap w)) w).
Proof.
  intros H. unfold modify_global_block. do 2 f_equal.
  apply list_eq. intros i. destruct (decide (i = r)) as [->|Hne].
  - rewrite list_lookup_alter_eq, H, list_lookup_insert_eq; [done|].
    by eapply lookup_lt_Some.
  - by rewrite list_lookup_alter_ne, list_lookup_insert_ne.
Qed.

Lemma lookup_set_heap_insert r P' w :
  r < length (heap w) → heap (set_heap (<[r := P']> (heap w)) w) !! r = Some P'.
Proof. intros H. cbn. by apply list_lookup_insert_eq. Qed.

Lemma set_heap_insert_insert r P1 P2 w :
  set_heap (<[r := P2]> (heap (set_heap (<[r := P1]> (heap w)) w)))
    (set_heap (<[r := P1]> (heap w)) w)
  = set_heap (<[r := P2]> (heap w)) w.
Proof. unfold set_heap. cbn. by rewrite list_insert_insert_eq. Qed.

Lemma create_var_at r P nm ty w :
  heap w !! r = Some P →
  Block_create_var_ r nm None None ty None true w =
    (Ok (holder nm ty),
     set_heap (<[r := set_global_block P
                        {| vars := <[nm := holder nm ty]> (vars (global_block P));
                           ops := ops (global_block P) |}]> (heap w)) w).
Proof.
  intros H. unfold Block_create_var_.
  erewrite bind_ok by by apply get_Program_at.
  cbn [create_var]. erewrite bind_ok by by apply modify_global_block_at.
  done.
Qed.

Lemma for_each_feed r fv (names : list string) :
  ∀ (k : nat) (m : gmap string Var) os sb w,
    heap w !! r = Some {| global_block := {| vars := m; ops := os |}; sub_blocks := sb |} →
    (∀ nm, nm ∈ names → is_Some (m !! nm)) →
    for_each (imap (λ i nm, (k + i, nm)) names)
      (λ '(i, nm), out ← Block_var_ r nm; Block_prepend_op_ r (feed_op fv out i)) w
    = (Ok (),
       set_heap (<[r := {| global_block :=
                             {| vars := m;
                                ops := rev (imap (λ i nm, feed_op fv (m !!! nm) (k + i)) names)
                                       ++ os |};
                           sub_blocks := sb |}]> (heap w)) w).
Proof.
  induction names as [|nm names IH]; intros k m os sb w Hr Hdecl.
  - cbn. unfold mret, M_ret. rewrite list_insert_id by done. by rewrite set_heap_id.
  - cbn [imap for_each]. destruct (Hdecl nm) as [out Hout]; [by left|].
    assert (Hlt : r < length (heap w)) by by eapply lookup_lt_Some.
    erewrite bind_ok.
    2:{ erewrite bind_ok.
        2:{ unfold Block_var_. erewrite bind_ok by by apply get_Program_at.
            unfold Block_var, lift. cbn [global_block vars]. rewrite Hout.
            reflexivity. }
        unfold Block_prepend_op_. erewrite modify_global_block_at by done.
        reflexivity. }
    cbn [global_block vars ops prepend_op set_global_block sub_blocks].
    rewrite (imap_ext _ (λ i nm0, (S k + i, nm0)) names).
    2:{ intros i x _. cbn. f_equal. lia. }
    erewrite IH.
    2:{ by apply lookup_set_heap_insert. }
    2:{ intros nm' Hin. apply Hdecl. by right. }
    rewrite set_heap_insert_insert. do 5 f_equal.
    rewrite (lookup_total_correct _ _ _ Hout), Nat.add_0_r.
    cbn [rev]. rewrite <- app_assoc. cbn. do 2 f_equal.
    apply imap_ext. intros i x _. cbn. do 2 f_equal. lia.
Qed.

Lemma enumerate_from_0 {A} (l : list A) : enumerate l = imap (λ i x, (0 + i, x)) l.
Proof. done. Qed.

(** [prepend_feed_ops] on a program whose global block declares the
    names. *)
Lemma prepend_feed_ops_declared r P names hn w :
  heap w !! r = Some P →
  (∀ nm, nm ∈ names →
         is_Some (<[hn := holder hn FEED_MINIBATCH]> (vars (global_block P)) !! nm)) →
  prepend_feed_ops r names hn w
  = (Ok (), set_heap (<[r := with_feed_ops P names hn]> (heap w)) w).
Proof.
  intros Hr Hdecl. unfold prepend_feed_ops.
  erewrite bind_ok by by apply create_var_at.
  assert (Hlt : r < length (heap w)) by by eapply lookup_lt_Some.
  rewrite enumerate_from_0. unfold set_global_block at 1.
  erewrite (for_each_feed r).
  2:{ by apply lookup_set_heap_insert. }
  2:{ exact Hdecl. }
  rewrite set_heap_insert_insert. done.
Qed.

Lemma for_each_fetch r hn (names : list string) :
  ∀ (k : nat) (m : gmap string Var) os sb w,
    heap w !! r = Some {| global_block := {| vars := m; ops := os |}; sub_blocks := sb |} →
    for_each (imap (λ i nm, (k + i, nm)) names)
      (λ '(i, nm), Block_append_op_ r (fetch_op nm hn i)) w
    = (Ok (),
       set_heap (<[r := {| global_block :=
                             {| vars := m;
                                ops := os ++ imap (λ i nm, fetch_op nm hn (k + i)) names |};
                           sub_blocks := sb |}]> (heap w)) w).
Proof.
  induction names as [|nm names IH]; intros k m os sb w Hr.
  - cbn. unfold mret, M_ret. rewrite app_nil_r, list_insert_id by done.
    by rewrite set_heap_id.
  - cbn [imap for_each].
    assert (Hlt : r < length (heap w)) by by eapply lookup_lt_Some.
    erewrite bind_ok.
    2:{ unfold Block_append_op_. erewrite modify_global_block_at by done.
        reflexivity. }
    cbn [global_block vars ops append_op set_global_block sub_blocks].
    rewrite (imap_ext _ (λ i nm0, (S k + i, nm0)) names).
    2:{ intros i x _. cbn. f_equal. lia. }
    erewrite IH.
    2:{ by apply lookup_set_heap_insert. }
    rewrite set_heap_insert_insert. do 5 f_equal.
    rewrite Nat.add_0_r, <- app_assoc. cbn. do 2 f_equal.
    apply imap_ext. intros i x _. cbn. f_equal. lia.
Qed.

Lemma append_fetch_ops_at r P names hn w :
  heap w !! r = Some P →
  append_fetch_ops r names hn w
  = (Ok (), set_heap (<[r := with_fetch_ops P names hn]> (heap w)) w).
Proof.
  intros Hr. unfold append_fetch_ops.
  erewrite bind_ok by by apply create_var_at.
  assert (Hlt : r < length (heap w)) by by eapply lookup_lt_Some.
  rewrite enumerate_from_0. unfold set_global_block at 1.
  cbn [name holder].
  erewrite (for_each_fetch r hn).
  2:{ by apply lookup_set_heap_insert. }
  rewrite set_heap_insert_insert. done.
Qed.

Lemma feed_names_other os acc :
  Forall (λ o, op_type o ≠ "feed") os →
  foldl feed_names_step (Ok acc) os = Ok acc.
Proof.
  induction 1 as [|o os Ho _ IH]; [done|]. cbn [foldl].
  unfold feed_names_step at 2. cbn. by rewrite bool_decide_eq_false_2.
Qed.

Lemma fetch_names_other os acc :
  Forall (λ o, op_type o ≠ "fetch") os →
  foldl fetch_names_step (Ok acc) os = Ok acc.
Proof.
  induction 1 as [|o os Ho _ IH]; [done|]. cbn [foldl].
  unfold fetch_names_step at 2. cbn. by rewrite bool_decide_eq_false_2.
Qed.

Lemma feed_names_step_feed acc fv out i :
  feed_names_step (Ok acc) (feed_op fv out i) = Ok (name out :: acc).
Proof. done. Qed.

Lemma fetch_names_step_fetch acc nm hn i :
  fetch_names_step (Ok acc) (fetch_op nm hn i) = Ok (acc ++ [nm]).
Proof. done. Qed.

Lemma feed_names_rev_feed_ops fv (out : string → Var) (names : list string) :
  ∀ k acc,
    foldl feed_names_step (Ok acc)
      (rev (imap (λ i nm, feed_op fv (out nm) (k + i)) names))
    = Ok ((name ∘ out <$> names) ++ acc).
Proof.
  induction names as [|nm names IH]; intros k acc; [done|].
  cbn [imap rev]. rewrite foldl_app.
  rewrite (imap_ext _ (λ i nm0, feed_op fv (out nm0) (S k + i)) names).
  2:{ intros i x _. cbn. do 2 f_equal. lia. }
  rewrite IH. cbn [foldl]. by rewrite feed_names_step_feed.
Qed.

Lemma fetch_names_fetch_ops hn (names : list string) :
  ∀ k acc,
    foldl fetch_names_step (Ok acc) (imap (λ i nm, fetch_op nm hn (k + i)) names)
    = Ok (acc ++ names).
Proof.
  induction names as [|nm names IH]; intros k acc; [by rewrite app_nil_r|].
  cbn [imap foldl].
  rewrite (imap_ext _ (λ i nm0, fetch_op nm0 hn (S k + i)) names).
  2:{ intros i x _. cbn. f_equal. lia. }
  rewrite fetch_names_step_fetch, IH. by rewrite <- app_assoc.
Qed.

Lemma feed_names_with_feed_ops P names hn :
  no_op_of_type "feed" (global_block P) →
  keys_named (global_block P) →
  (∀ nm, nm ∈ names →
         is_Some (<[hn := holder hn FEED_MINIBATCH]> (vars (global_block P)) !! nm)) →
  get_feed_targets_names_of (with_feed_ops P names hn) = Ok names.
Proof.
  intros Hno Hkeys Hdecl. unfold get_feed_targets_names_of, with_feed_ops.
  cbn [global_block set_global_block ops].
  change (foldl feed_names_step (Ok [])
            (rev (imap (λ i nm, feed_op (holder hn FEED_MINIBATCH)
                      (<[hn := holder hn FEED_MINIBATCH]> (vars (global_block P)) !!! nm)
                      (0 + i)) names)
             ++ ops (global_block P)) = Ok names).
  rewrite foldl_app, feed_names_rev_feed_ops, feed_names_other by done.
  rewrite app_nil_r. f_equal. rewrite <- (list_fmap_id names) at 2.
  apply list_fmap_ext. intros i nm Hi.
  destruct (Hdecl nm) as [v Hv]; [by eapply list_elem_of_lookup_2|].
  cbn. rewrite (lookup_total_correct _ _ _ Hv).
  assert (Hk : map_Forall (λ k v, name v = k)
                 (<[hn := holder hn FEED_MINIBATCH]> (vars (global_block P)))).
  { by apply map_Forall_insert_2. }
  by apply (map_Forall_lookup_1 _ _ _ _ Hk).
Qed.

Lemma fetch_names_with_fetch_ops P names hn :
  no_op_of_type "fetch" (global_block P) →
  get_fetch_targets_names_of (with_fetch_ops P names hn) = Ok names.
Proof.
  intros Hno. unfold get_fetch_targets_names_of, with_fetch_ops.
  cbn [global_block set_global_block ops].
  change (foldl fetch_names_step (Ok [])
            (ops (global_block P)
             ++ imap (λ i nm, fetch_op nm hn (0 + i)) names) = Ok names).
  by rewrite foldl_app, fetch_names_other, fetch_names_fetch_ops.
Qed.

(** C9, amended: on a program that has no [feed] operator yet, whose
    variables are declared under their names and whose global block
    declares the names (the holder counts as declared),
    [prepend_feed_ops] returns and [get_feed_targets_names] then returns
    exactly the names in their order; on a program that has no [fetch]
    operator yet, [append_fetch_ops] returns and
    [get_fetch_targets_names] then returns exactly the names in their
    order. *)
Theorem feed_fetch_round_trip (program : nat) (P : Program)
    (names : list string) (w : World) :
  heap w !! program = Some P →
  (no_op_of_type "feed" (global_block P) →
   keys_named (global_block P) →
   Forall (λ nm, is_Some (<["feed" := holder "feed" FEED_MINIBATCH]>
                            (vars (global_block P)) !! nm)) names →
   ∃ w', prepend_feed_ops program names "feed" w = (Ok (), w')
       ∧ get_feed_targets_names program w' = (Ok names, w'))
  ∧ (no_op_of_type "fetch" (global_block P) →
     ∃ w', append_fetch_ops program names "fetch" w = (Ok (), w')
         ∧ get_fetch_targets_names program w' = (Ok names, w')).
Proof.
  intros Hr. assert (Hlt : program < length (heap w)) by by eapply lookup_lt_Some.
  split.
  - intros Hno Hkeys Hdecl. rewrite Forall_forall in Hdecl.
    eexists. split; [by apply prepend_feed_ops_declared|].
    unfold get_feed_targets_names.
    erewrite bind_ok by by apply get_Program_at, lookup_set_heap_insert.
    unfold lift. by rewrite feed_names_with_feed_ops.
  - intros Hno. eexists. split; [by apply append_fetch_ops_at|].
    unfold get_fetch_targets_names.
    erewrite bind_ok by by apply get_Program_at, lookup_set_heap_insert.
    unfold lift. by rewrite fetch_names_with_fetch_ops.
Qed.

(** C9 on the network, which has no [feed] or [fetch] operator yet. *)
Lemma feed_fetch_round_trip_witness :
  (∃ w', prepend_feed_ops 0 ["x"; "y"] "feed" ex_world = (Ok (), w')
       ∧ get_feed_targets_names 0 w' = (Ok ["x"; "y"], w'))
  ∧ (∃ w', append_fetch_ops 0 ["y"; "x"] "fetch" ex_world = (Ok (), w')
         ∧ get_fetch_targets_names 0 w' = (Ok ["y"; "x"], w')).
Proof.
  split.
  - apply (feed_fetch_round_trip 0 ex_main ["x"; "y"] ex_world); [reflexivity|..].
    + repeat constructor; discriminate.
    + unfold keys_named. apply (bool_decide_unpack _). vm_compute. exact I.
    + repeat constructor; apply (bool_decide_unpack _); vm_compute; exact I.
  - apply (feed_fetch_round_trip 0 ex_main ["y"; "x"] ex_world); [reflexivity|].
    repeat constructor; discriminate.
Defined.

(** C9 as stated fails: the inference program already feeds [x];
    after [prepend_feed_ops] with the name [y] the names read back are
    [x] and [y]. *)
Lemma feed_round_trip_fails_with_earlier_feed_ops :
  ((prepend_feed_ops 0 ["y"] "feed";; get_feed_targets_names 0) ex_world_loaded).1
    = Ok ["x"; "y"]
  ∧ ¬ feed_fetch_round_trip_on_every_program.
Proof.
  assert (H : ((prepend_feed_ops 0 ["y"] "feed";; get_feed_targets_names 0)
                 ex_world_loaded).1 = Ok ["x"; "y"]) by by vm_compute.
  split; [exact H|]. intros Hall.
  destruct (Hall ex_world_loaded 0 ex_inference ["y"] eq_refl) as [Hfeed _].
  rewrite H in Hfeed. discriminate.
Qed.

(** ** Paths *)

Lemma split_slash_nonempty s : os_path.split_slash s ≠ [].
Proof.
  destruct s as [|c s]; [done|]. cbn. case_bool_decide; [done|].
  by destruct (os_path.split_slash s).
Qed.

Lemma split_slash_app_slash a b :
  os_path.split_slash (a ++ String "/" b)%string
  = os_path.split_slash a ++ os_path.split_slash b.
Proof.
  induction a as [|c a IH]; [done|]. simpl.
  case_bool_decide.
  - by rewrite IH.
  - rewrite IH. pose proof (split_slash_nonempty a).
    by destruct (os_path.split_slash a).
Qed.

Lemma startswith_slash_app a b :
  a ≠ EmptyString →
  os_path.startswith_slash (a ++ b)%string = os_path.startswith_slash a.
Proof. by destruct a. Qed.

Lemma split_slash_plain n :
  os_path.has_slash n = false → os_path.split_slash n = [n].
Proof.
  induction n as [|c n IH]; [done|]. cbn. intros H.
  apply orb_false_elim in H as [Hc Hn]. rewrite Hc, IH; done.
Qed.

Lemma step_plain acc n :
  os_path.plain_name n = true → os_path.step acc n = n :: acc.
Proof.
  unfold os_path.plain_name, os_path.step. intros H.
  apply andb_prop in H as [_ H]. apply bool_decide_eq_true in H as (? & ? & ?).
  rewrite bool_decide_eq_false_2 by (intros [?|?]; done).
  by rewrite bool_decide_eq_false_2.
Qed.

Lemma resolve_slash cwd d b :
  d ≠ EmptyString →
  os_path.resolve cwd (d ++ String "/" b)%string
  = fold_left os_path.step (os_path.split_slash b) (os_path.resolve cwd d).
Proof.
  intros Hd. unfold os_path.resolve.
  by rewrite split_slash_app_slash, fold_left_app, startswith_slash_app.
Qed.

Lemma resolve_leading_slash cwd b :
  os_path.resolve cwd (String "/" b)
  = fold_left os_path.step (os_path.split_slash b) [].
Proof. done. Qed.

Lemma endswith_slash_inv d :
  os_path.endswith_slash d = true → ∃ a, d = (a ++ "/")%string.
Proof.
  induction d as [|c d IH]; [done|]. cbn. destruct d as [|c' d].
  - intros H. apply bool_decide_eq_true in H as ->. by exists EmptyString.
  - intros H. destruct (IH H) as [a Ha]. exists (String c a). cbn. by rewrite Ha.
Qed.

Lemma string_app_cons x (a b : string) :
  (String x a ++ b)%string = String x (a ++ b)%string.
Proof. done. Qed.

Lemma string_app_assoc (a b c : string) : ((a ++ b) ++ c = a ++ (b ++ c))%string.
Proof.
  induction a as [|x a IH]; [done|]. by rewrite !string_app_cons, IH.
Qed.

(** The entry a plain name [n] joined to a directory path denotes. *)
Lemma resolve_join cwd d n :
  d ≠ EmptyString → os_path.plain_name n = true →
  os_path.resolve cwd (os_path.join d n) = n :: os_path.resolve cwd d.
Proof.
  intros Hd Hn. pose proof Hn as Hplain.
  unfold os_path.plain_name in Hn. apply andb_prop in Hn as [Hslash Hne].
  apply negb_true_iff in Hslash. apply bool_decide_eq_true in Hne as (Hne & _).
  unfold os_path.join.
  assert (os_path.startswith_slash n = false) as ->.
  { destruct n as [|c n]; [done|]. cbn in *. by apply orb_false_elim in Hslash as [-> _]. }
  rewrite bool_decide_eq_false_2 by done. cbn [orb].
  destruct (os_path.endswith_slash d) eqn:Hend.
  - destruct (endswith_slash_inv d Hend) as [a ->].
    rewrite string_app_assoc.
    change ("/" ++ n)%string with (String "/" n).
    change "/"%string with (String "/" EmptyString).
    destruct a as [|c a].
    + change (EmptyString ++ String "/" n)%string with (String "/" n).
      change (EmptyString ++ String "/" EmptyString)%string
        with (String "/" EmptyString).
      rewrite !resolve_leading_slash, split_slash_plain by done.
      cbn [fold_left]. by rewrite step_plain.
    + rewrite !resolve_slash by done. rewrite split_slash_plain by done.
      cbn [fold_left os_path.split_slash]. by rewrite step_plain.
  - change ("/" ++ n)%string with (String "/" n).
    rewrite resolve_slash, split_slash_plain by done.
    cbn [fold_left]. by rewrite step_plain.
Qed.

(** The entry [n] of directory [d], written [d + "/" + n]. *)
Lemma resolve_child cwd d n :
  d ≠ EmptyString → os_path.plain_name n = true →
  os_path.resolve cwd (d ++ String "/" n)%string = n :: os_path.resolve cwd d.
Proof.
  intros Hd Hn. rewrite resolve_slash by done.
  apply andb_prop in Hn as Hn'. destruct Hn' as [Hslash _].
  apply negb_true_iff in Hslash. rewrite split_slash_plain by done.
  cbn [fold_left]. by rewrite step_plain.
Qed.

(** ** The file system *)

Lemma fs_grows_refl f : fs_grows f f.
Proof. split; [done|]. intros q. by split. Qed.

Lemma fs_grows_trans f1 f2 f3 : fs_grows f1 f2 → fs_grows f2 f3 → fs_grows f1 f3.
Proof.
  intros [Hc H12] [Hc' H23]. split; [congruence|]. intros q.
  destruct (H12 q), (H23 q). split; auto.
Qed.

Lemma node_at_insert t p x q :
  p ≠ [] →
  fs_ops.node_at (<[p := x]> t) q
  = if decide (p = q) then Some x else fs_ops.node_at t q.
Proof.
  intros Hp. destruct q as [|n q].
  - by rewrite decide_False.
  - cbn. by rewrite lookup_insert.
Qed.

Lemma mkdir_p_keeps t p t' :
  fs_ops.mkdir_p t p = Some t' →
  ∀ q nd, fs_ops.node_at t q = Some nd → fs_ops.node_at t' q = Some nd.
Proof.
  revert t'. induction p as [|n p IH]; intros t' H q nd Hq.
  - cbn in H. by simplify_eq.
  - cbn in H. destruct (fs_ops.mkdir_p t p) as [t1|] eqn:H1; [|done].
    specialize (IH t1 eq_refl q nd Hq).
    destruct (t1 !! (n :: p)) as [[|data]|] eqn:Hn; simplify_eq; [done|].
    rewrite node_at_insert by done. case_decide; [|done].
    subst q. cbn in IH. congruence.
Qed.

Lemma mkdir_p_is_dir t p t' :
  fs_ops.mkdir_p t p = Some t' → is_dir t' p.
Proof.
  unfold is_dir. destruct p as [|n p]; [done|]. cbn.
  destruct (fs_ops.mkdir_p t p) as [t1|]; [|done].
  destruct (t1 !! (n :: p)) as [[|data]|] eqn:Hn; intros; simplify_eq; [done|].
  by rewrite lookup_insert_eq.
Qed.

Lemma put_file_inv t p data t' :
  fs_ops.put_file t p data = Some t' →
  t' = <[p := File data]> t ∧ p ≠ [] ∧ ¬ is_dir t p ∧ is_dir t (tail p).
Proof.
  unfold fs_ops.put_file, is_dir. destruct p as [|n p]; [done|].
  destruct (fs_ops.node_at t p) as [[|?]|] eqn:Hp; try done. cbn.
  destruct (t !! (n :: p)) as [[|?]|] eqn:Hn; try done; intros; by simplify_eq.
Qed.

Lemma insert_file_grows c t p data :
  p ≠ [] → ¬ is_dir t p →
  fs_grows {| cwd := c; tree := t |} {| cwd := c; tree := <[p := File data]> t |}.
Proof.
  intros Hp Hnd. split; [done|]. intros q. unfold is_dir, is_file. cbn.
  rewrite node_at_insert by done. case_decide as Hq.
  - subst q. split; [done|]. by eexists.
  - done.
Qed.

Lemma mkdir_p_grows c t p t' :
  fs_ops.mkdir_p t p = Some t' →
  fs_grows {| cwd := c; tree := t |} {| cwd := c; tree := t' |}.
Proof.
  intros H. split; [done|]. intros q. unfold is_dir, is_file. cbn. split.
  - intros Hq. by eapply mkdir_p_keeps.
  - intros [data Hd]. exists data. by eapply mkdir_p_keeps.
Qed.

Lemma FS_eta f : {| cwd := cwd f; tree := tree f |} = f.
Proof. by destruct f. Qed.

Lemma makedirs_ok f s f' :
  fs_ops.makedirs f s = (Ok (), f') →
  fs_grows f f' ∧ fs_ops.isdir f' s = true.
Proof.
  unfold fs_ops.makedirs. case_bool_decide as Hs; [done|].
  destruct (fs_ops.node_at (tree f) (fs_ops.resolve f s)); [done|].
  destruct (fs_ops.mkdir_p (tree f) (fs_ops.resolve f s)) as [t'|] eqn:Hm; [|done].
  intros [= <-]. split.
  - rewrite <- (FS_eta f) at 1. by eapply mkdir_p_grows.
  - unfold fs_ops.isdir. rewrite bool_decide_eq_true_2 by done. cbn.
    apply bool_decide_eq_true_2. by apply mkdir_p_is_dir in Hm.
Qed.

Lemma write_file_ok f s data f' :
  fs_ops.write_file f s data = (Ok (), f') →
  fs_grows f f' ∧ fs_ops.read_file f' s = Ok data.
Proof.
  unfold fs_ops.write_file. case_bool_decide as Hs; [done|].
  destruct (fs_ops.put_file (tree f) (fs_ops.resolve f s) data) as [t'|] eqn:Hp; [|done].
  intros [= <-]. apply put_file_inv in Hp as (-> & Hne & Hnd & _). split.
  - rewrite <- (FS_eta f) at 1. by apply insert_file_grows.
  - unfold fs_ops.read_file. rewrite bool_decide_eq_false_2 by done.
    unfold fs_ops.resolve. cbn [cwd tree].
    rewrite node_at_insert by done. by rewrite decide_True.
Qed.

Lemma isdir_grows f f' s :
  fs_grows f f' → fs_ops.isdir f s = true → fs_ops.isdir f' s = true.
Proof.
  intros [Hc Hg]. unfold fs_ops.isdir, fs_ops.resolve. rewrite Hc.
  intros H. apply andb_prop in H as [Hs Hd]. rewrite Hs. cbn.
  apply bool_decide_eq_true in Hd. apply bool_decide_eq_true_2.
  by apply (Hg _).
Qed.

Lemma isfile_is_file f s :
  fs_ops.isfile f s = true ↔ s ≠ "" ∧ is_file (tree f) (fs_ops.resolve f s).
Proof.
  unfold fs_ops.isfile, is_file. split.
  - intros H. apply andb_prop in H as [Hs Hd]. apply bool_decide_eq_true in Hs.
    split; [done|]. destruct (fs_ops.node_at _ _) as [[|data]|]; try done. by eexists.
  - intros [Hs [data Hd]]. rewrite Hd. by rewrite bool_decide_eq_true_2.
Qed.

Lemma isfile_grows f f' s :
  fs_grows f f' → fs_ops.isfile f s = true → fs_ops.isfile f' s = true.
Proof.
  intros [Hc Hg]. rewrite !isfile_is_file. unfold fs_ops.resolve. rewrite Hc.
  intros [Hs Hd]. split; [done|]. by apply (Hg _).
Qed.

Lemma elem_of_dir_files t p n :
  n ∈ fs_ops.dir_files t p ↔ ∃ data, t !! (n :: p) = Some (File data).
Proof.
  unfold fs_ops.dir_files. rewrite elem_of_list_to_set, list_elem_of_omap. split.
  - intros [[k nd] [Hin Hf]]. apply elem_of_map_to_list in Hin.
    destruct k as [|n' q]; [done|]. destruct nd as [|data]; [done|].
    case_decide; simplify_eq. by exists data.
  - intros [data Hd]. exists (n :: p, File data). split.
    + by apply elem_of_map_to_list.
    + by rewrite decide_True.
Qed.

(** A plain name that is a file of the directory is listed by
    [os.walk]. *)
Lemma walk_files_lists f d n :
  fs_ops.isdir f d = true → os_path.plain_name n = true →
  fs_ops.isfile f (os_path.join d n) = true →
  ∃ names, fs_ops.walk_files f d = Ok names ∧ n ∈ names.
Proof.
  intros Hd Hn Hf. unfold fs_ops.walk_files. rewrite Hd. eexists. split; [done|].
  apply andb_prop in Hd as [Hne _]. apply bool_decide_eq_true in Hne.
  apply isfile_is_file in Hf as [_ [data Hdata]].
  unfold fs_ops.resolve in *. rewrite resolve_join in Hdata by done.
  apply elem_of_dir_files. by exists data.
Qed.

(** ** The reference executor on save and load programs *)

Lemma run_op_save tensor f d v :
  run_op tensor f (save_op d v)
  = match t ← fs_ops.mkdir_p (tree f)
                 (tail (fs_ops.resolve f (os_path.join d (name v))));
          fs_ops.put_file t (fs_ops.resolve f (os_path.join d (name v)))
            (tensor (name v)) with
    | Some t' =>
        if bool_decide (os_path.join d (name v) = "")
        then (Raise (Exn EnforceNotMet ["cannot write"; os_path.join d (name v)]), f)
        else (Ok (), {| cwd := cwd f; tree := t' |})
    | None => (Raise (Exn EnforceNotMet ["cannot write"; os_path.join d (name v)]), f)
    end.
Proof. reflexivity. Qed.

Lemma run_op_load tensor f d v :
  run_op tensor f (load_op d v)
  = match fs_ops.read_file f (os_path.join d (name v)) with
    | Ok _ => (Ok (), f)
    | Raise _ => (Raise (Exn EnforceNotMet ["cannot read"; os_path.join d (name v)]), f)
    end.
Proof. reflexivity. Qed.

Lemma run_op_save_ok tensor f d v f' :
  run_op tensor f (save_op d v) = (Ok (), f') →
  fs_grows f f'
  ∧ fs_ops.read_file f' (os_path.join d (name v)) = Ok (tensor (name v))
  ∧ ∀ q nd, q ≠ fs_ops.resolve f (os_path.join d (name v)) →
            fs_ops.node_at (tree f) q = Some nd → fs_ops.node_at (tree f') q = Some nd.
Proof.
  rewrite run_op_save.
  set (path := os_path.join d (name v)). set (p := fs_ops.resolve f path).
  destruct (fs_ops.mkdir_p (tree f) (tail p)) as [t1|] eqn:Hm; [|done]. cbn.
  destruct (fs_ops.put_file t1 p (tensor (name v))) as [t2|] eqn:Hp; [|done].
  case_bool_decide as Hpath; [done|]. intros [= <-].
  apply put_file_inv in Hp as (-> & Hne & Hnd & _). split; [|split].
  - eapply fs_grows_trans.
    + rewrite <- (FS_eta f) at 1. by eapply mkdir_p_grows.
    + by apply insert_file_grows.
  - unfold fs_ops.read_file. rewrite bool_decide_eq_false_2 by done.
    unfold fs_ops.resolve. cbn [cwd tree]. fold (fs_ops.resolve f path). fold p.
    rewrite node_at_insert by done. by rewrite decide_True.
  - intros q nd Hq Hnode. cbn [tree]. rewrite node_at_insert by done.
    rewrite decide_False by done. by eapply mkdir_p_keeps.
Qed.

Lemma read_file_isfile f s data :
  fs_ops.read_file f s = Ok data → fs_ops.isfile f s = true.
Proof.
  unfold fs_ops.read_file, fs_ops.isfile. case_bool_decide; [done|].
  rewrite bool_decide_eq_true_2 by done.
  by destruct (fs_ops.node_at _ _) as [[|?]|].
Qed.

Lemma run_ops_save_ok tensor d vs :
  ∀ f f',
    run_ops tensor f (save_op d <$> vs) = (Ok (), f') →
    fs_grows f f'
    ∧ (∀ v, v ∈ vs → fs_ops.isfile f' (os_path.join d (name v)) = true)
    ∧ ∀ q nd, (∀ v, v ∈ vs → fs_ops.resolve f (os_path.join d (name v)) ≠ q) →
              fs_ops.node_at (tree f) q = Some nd →
              fs_ops.node_at (tree f') q = Some nd.
Proof.
  induction vs as [|v vs IH]; intros f f' H.
  - cbn in H. injection H as <-. split; [apply fs_grows_refl|].
    split; [by intros v ?%elem_of_nil|done].
  - cbn [fmap list_fmap run_ops] in H.
    destruct (run_op tensor f (save_op d v)) as [[[]|e] f1] eqn:H1; [|done].
    apply run_op_save_ok in H1 as (Hg1 & Hread & Hkeep1).
    apply IH in H as (Hg & Hfiles & Hkeep).
    assert (Hres : ∀ s, fs_ops.resolve f1 s = fs_ops.resolve f s).
    { intros s. unfold fs_ops.resolve. by rewrite (proj1 Hg1). }
    split; [by eapply fs_grows_trans|]. split.
    + intros v' [->|Hin]%elem_of_cons; [|by apply Hfiles].
      eapply isfile_grows; [exact Hg|]. by eapply read_file_isfile.
    + intros q nd Hq Hnode. apply Hkeep.
      * intros v' Hin. rewrite Hres. apply Hq. by right.
      * apply Hkeep1; [|done]. intros ->. by apply (Hq v); [left|].
Qed.

(** ** Running [save_inference_model] *)

Lemma bind_inv {A B} (m : M A) (k : A → M B) w b w' :
  (m ≫= k) w = (Ok b, w') →
  ∃ a w1, m w = (Ok a, w1) ∧ k a w1 = (Ok b, w').
Proof.
  unfold mbind, M_bind. destruct (m w) as [[a|e] w1]; [|done]. eauto.
Qed.

Lemma py_strs_fmap names : py_strs (PyStr <$> names) = names.
Proof.
  unfold py_strs. induction names as [|n names IH]; [done|]. cbn. by rewrite IH.
Qed.

Lemma py_vars_fmap vs : py_vars (PyVar <$> vs) = vs.
Proof.
  unfold py_vars. induction vs as [|v vs IH]; [done|]. cbn. by rewrite IH.
Qed.

Lemma forallb_fmap_true {A} (is_cls : PyVal → bool) (c : A → PyVal) l :
  (∀ x, is_cls (c x) = true) → forallb is_cls (c <$> l) = true.
Proof. intros H. induction l as [|x l IH]; [done|]. cbn. by rewrite H, IH. Qed.

(** The check of a list argument, on a list of instances. *)
Lemma checked_list {A} (is_cls : PyVal → bool) (c : A → PyVal) l msg w r w' :
  (∀ x, is_cls (c x) = true) →
  is_cls (PyList (c <$> l)) = false →
  (if is_cls (PyList (c <$> l)) then mret [PyList (c <$> l)]
   else ok ← lift (if truthy (PyList (c <$> l))
                   then py_all is_cls (PyList (c <$> l)) else Ok false);
        if negb ok then raise ValueError [msg]
        else lift (py_iter (PyList (c <$> l)))) w = (Ok r, w') →
  r = c <$> l ∧ w' = w ∧ l ≠ [].
Proof.
  intros Hc Hl. rewrite Hl. destruct l as [|x l]; [done|].
  unfold py_all, mbind, M_bind, lift. cbn [truthy py_iter].
  rewrite bool_decide_eq_true_2 by done. cbn [mbind outcome_bind mret outcome_ret].
  rewrite forallb_fmap_true by done. cbn. intros [= <- <-]. done.
Qed.

Lemma default_main_resolved (mp : option nat) w :
  match py_program mp with
  | PyNone => default_main_program
  | _ => mret (py_program mp)
  end w = (Ok (PyProgram (main_ref mp w)), w).
Proof. by destruct mp. Qed.

Lemma ensure_dir_inv dirname w w' :
  (if negb (fs_ops.isdir (fs w) dirname) then os_makedirs dirname else mret ()) w
  = (Ok (), w') →
  ∃ f1, w' = set_fs f1 w ∧ fs_grows (fs w) f1 ∧ fs_ops.isdir f1 dirname = true.
Proof.
  unfold os_makedirs.
  destruct (fs_ops.isdir (fs w) dirname) eqn:Hd; cbn [negb].
  - intros [= <-]. exists (fs w). split; [by destruct w|].
    split; [apply fs_grows_refl|done].
  - destruct (fs_ops.makedirs (fs w) dirname) as [[[]|e] f1] eqn:Hm; [|done].
    intros [= <-]. exists f1. split; [done|]. by apply makedirs_ok.
Qed.

Lemma prepend_feed_ops_inv r g names hn w w' :
  heap w !! r = Some g →
  prepend_feed_ops r names hn w = (Ok (), w') →
  Forall (λ nm, is_Some (<[hn := holder hn FEED_MINIBATCH]> (vars (global_block g)) !! nm))
    names.
Proof.
  intros Hr. unfold prepend_feed_ops.
  erewrite bind_ok by by apply create_var_at.
  assert (Hlt : r < length (heap w)) by by eapply lookup_lt_Some.
  set (m := <[hn := holder hn FEED_MINIBATCH]> (vars (global_block g))).
  set (w1 := set_heap _ w).
  assert (H1 : heap w1 !! r = Some (set_global_block g {| vars := m; ops := ops (global_block g) |}))
    by by apply lookup_set_heap_insert.
  rewrite enumerate_from_0. generalize 0 as k.
  unfold set_global_block in H1. revert H1. generalize (ops (global_block g)) as os.
  generalize w1 as w2. clear w1 Hr Hlt.
  induction names as [|nm names IH]; intros w2 os H2 k H; [done|].
  cbn [imap for_each] in H. apply bind_inv in H as ([] & w3 & Hbody & H).
  apply bind_inv in Hbody as (out & w4 & Hvar & Hprep).
  unfold Block_var_ in Hvar. erewrite bind_ok in Hvar by by apply get_Program_at.
  unfold lift, Block_var in Hvar. cbn [global_block vars] in Hvar.
  destruct (m !! nm) as [out'|] eqn:Hnm; [|done]. injection Hvar as <- <-.
  constructor; [by eexists|].
  unfold Block_prepend_op_ in Hprep. erewrite modify_global_block_at in Hprep by done.
  injection Hprep as <-.
  rewrite (imap_ext _ (λ i nm0, (S k + i, nm0)) names) in H.
  2:{ intros i x _. cbn. f_equal. lia. }
  eapply IH; [|exact H]. apply lookup_set_heap_insert. by eapply lookup_lt_Some.
Qed.

Section InferenceRun.

Variable prune : Program → list PyVal → outcome Program.
Variable inference_optimize : Program → outcome Program.
Variable serialize_to_string : Program → string.
Variable parse_from_string : string → outcome Program.

Lemma Program_prune_inv r targets w rq w' :
  Program_prune prune (PyProgram r) targets w = (Ok rq, w') →
  ∃ q, prune (heap w !!! r) targets = Ok q
     ∧ rq = length (heap w) ∧ w' = set_heap (heap w ++ [q]) w.
Proof.
  unfold Program_prune, get_Program, lift, alloc_Program, mbind, M_bind.
  destruct (prune (heap w !!! r) targets) as [q|e]; [|done].
  intros [= <- <-]. by exists q.
Qed.

Lemma Program_inference_optimize_inv r w rg w' :
  Program_inference_optimize inference_optimize r w = (Ok rg, w') →
  ∃ g, inference_optimize (heap w !!! r) = Ok g
     ∧ rg = length (heap w) ∧ w' = set_heap (heap w ++ [g]) w.
Proof.
  unfold Program_inference_optimize, get_Program, lift, alloc_Program, mbind, M_bind.
  destruct (inference_optimize (heap w !!! r)) as [g|e]; [|done].
  intros [= <- <-]. by exists g.
Qed.

(** What a call of [save_inference_model] that returns has done. *)
Lemma save_inference_model_inv dirname names tvs executor mp w w' :
  main_ref mp w < length (heap w) →
  save_inference_model prune inference_optimize serialize_to_string dirname
    (PyList (PyStr <$> names)) (PyList (PyVar <$> tvs)) executor (py_program mp) w
  = (Ok (), w') →
  ∃ q g f1 f2,
    let Pinf := with_markers g names (name <$> tvs) in
    let Psave := emitted (save_op dirname)
                   (filter (λ v, is_parameter v = true) (list_vars (program_of mp w))) in
    prune (program_of mp w) (PyVar <$> tvs) = Ok q
    ∧ inference_optimize q = Ok g
    ∧ Forall (declared_or_holder g) names
    ∧ fs_grows (fs w) f1 ∧ fs_ops.isdir f1 dirname = true
    ∧ fs_ops.write_file f1 (dirname ++ "/__model__") (serialize_to_string Pinf)
      = (Ok (), f2)
    ∧ executor Psave f2 = (Ok (), fs w')
    ∧ heap w' = heap w ++ [q; Pinf; Psave]
    ∧ runs w' = runs w ++ [(length (heap w) + 2, Psave)]
    ∧ main_program_ w' = main_program_ w.
Proof.
  intros Hmain H. unfold save_inference_model in H.
  apply bind_inv in H as (lf & w1 & Hf & H).
  apply checked_list in Hf as (-> & -> & _); [|done..].
  apply bind_inv in H as (lt & w1 & Ht & H).
  apply checked_list in Ht as (-> & -> & _); [|done..].
  rewrite (bind_ok _ _ _ _ _ (default_main_resolved mp w)) in H.
  erewrite (bind_ok (os_path_isdir dirname)) in H by reflexivity.
  apply bind_inv in H as ([] & w1 & Hdir & H).
  apply ensure_dir_inv in Hdir as (f1 & -> & Hg1 & Hd1).
  apply bind_inv in H as (rq & w2 & Hq & H).
  apply Program_prune_inv in Hq as (q & Hq & -> & ->).
  apply bind_inv in H as (rg & w3 & Hopt & H).
  apply Program_inference_optimize_inv in Hopt as (g & Hopt & -> & ->).
  cbn [heap set_heap set_fs] in Hq, Hopt, H.
  rewrite lookup_total_alloc in Hopt.
  rewrite py_strs_fmap, py_vars_fmap in H.
  set (w3 := set_heap ((heap w ++ [q]) ++ [g]) (set_heap (heap w ++ [q]) (set_fs f1 w))) in H.
  assert (H3 : heap w3 !! length (heap w ++ [q]) = Some g).
  { cbn. rewrite lookup_app_r by lia. by rewrite Nat.sub_diag. }
  apply bind_inv in H as ([] & w4 & Hfeed & H).
  pose proof (prepend_feed_ops_inv _ _ _ _ _ _ H3 Hfeed) as Hdecl.
  rewrite prepend_feed_ops_declared with (P := g) in Hfeed;
    [|done|by apply Forall_forall].
  injection Hfeed as <-.
  change ((heap w ++ [q]) ++ [g]) with (heap w3) in H.
  assert (Hlt : length (heap w ++ [q]) < length (heap w3)).
  { cbn. rewrite !length_app. cbn. lia. }
  erewrite (bind_ok (append_fetch_ops _ _ _)) in H.
  2:{ apply append_fetch_ops_at. by apply lookup_set_heap_insert. }
  rewrite set_heap_insert_insert in H.
  set (Pinf := with_fetch_ops (with_feed_ops g names "feed") (name <$> tvs) "fetch") in H.
  erewrite bind_ok in H.
  2:{ apply get_Program_at. by apply lookup_set_heap_insert. }
  apply bind_inv in H as ([] & w5 & Hw & H).
  unfold write_file in Hw. cbn [fs set_heap set_fs w3] in Hw.
  destruct (fs_ops.write_file f1 (dirname ++ "/__model__") (serialize_to_string Pinf))
    as [[[]|e] f2] eqn:Hwrite; [|done].
  injection Hw as <-.
  unfold save_params in H.
  change (PyProgram (main_ref mp w)) with (py_program (Some (main_ref mp w))) in H.
  rewrite save_vars_none in H.
  assert (Hheap : <[length (heap w ++ [q]) := Pinf]> (heap w3) = heap w ++ [q; Pinf]).
  { cbn. rewrite <- app_assoc. cbn.
    replace (length (heap w ++ [q])) with (length (heap w) + 1) by (rewrite length_app; cbn; lia).
    rewrite insert_app_r. done. }
  change ((heap w ++ [q]) ++ [g]) with (heap w3) in H.
  rewrite Hheap in H. unfold run_fresh in H.
  cbn [heap set_heap set_fs fs main_program_ runs] in H.
  assert (Hprog : program_of (Some (main_ref mp w))
                    (set_fs f2 (set_heap (heap w ++ [q; Pinf]) w3)) = program_of mp w).
  { unfold program_of. cbn. by rewrite lookup_total_app_l. }
  rewrite Hprog in H.
  set (Psave := emitted (save_op dirname) _) in H.
  destruct (executor Psave f2) as [o f3] eqn:Hexe. cbn [fst snd] in H.
  injection H as -> <-. cbn [heap runs fs main_program_].
  exists q, g, f1, f2. cbn zeta. fold Pinf.
  split; [done|]. split; [done|]. split; [done|]. split; [done|]. split; [done|].
  split; [done|]. split; [done|]. split.
  - by rewrite <- app_assoc.
  - split; [|done]. do 3 f_equal. rewrite length_app. cbn. lia.
Qed.

Lemma get_inference_program_eq targets mp w :
  get_inference_program prune inference_optimize targets (py_program mp) w
  = match prune (program_of mp w) (expand_targets targets) with
    | Raise e => (Raise e, w)
    | Ok q =>
        match inference_optimize q with
        | Raise e => (Raise e, set_heap (heap w ++ [q]) w)
        | Ok g => (Ok (length (heap w) + 1), set_heap (heap w ++ [q; g]) w)
        end
    end.
Proof.
  unfold get_inference_program.
  rewrite (bind_ok _ _ _ _ _ (default_main_resolved mp w)).
  change (match targets with PyList l => l | _ => [targets] end
          ≫= λ var, match var with
                    | PyEvaluator states metrics => (PyVar <$> states) ++ (PyVar <$> metrics)
                    | _ => [var]
                    end) with (expand_targets targets).
  unfold Program_prune, Program_inference_optimize, get_Program, lift,
    alloc_Program, mbind at 1 2 3 4 5 6, M_bind, mret, M_ret.
  fold (program_of mp w).
  destruct (prune (program_of mp w) (expand_targets targets)) as [q|e]; [|done].
  cbn [heap set_heap]. rewrite lookup_total_alloc.
  destruct (inference_optimize q) as [g|e]; [|done].
  rewrite length_app, set_heap_set_heap, <- app_assoc. done.
Qed.

Lemma World_eq w1 w2 :
  heap w1 = heap w2 → main_program_ w1 = main_program_ w2 →
  fs w1 = fs w2 → runs w1 = runs w2 → w1 = w2.
Proof. destruct w1, w2. cbn. by intros -> -> -> ->. Qed.

Lemma outcome_pair {A} (x : outcome A * World) a : x.1 = Ok a → x = (Ok a, x.2).
Proof. destruct x. cbn. by intros ->. Qed.

(** C8: the inference program is the pruned, optimized main program.
    [get_inference_program] returns [main_program.prune(targets)
    .inference_optimize()], the targets being the given ones with every
    [Evaluator] replaced by its states and metrics; a call of
    [save_inference_model] that returns has serialized that program of
    its target variables with one [feed] operator per feed name in
    front, of column [i] for the [i]-th name, and one [fetch] operator
    per target variable name at the end. *)
Theorem inference_program_pruned_and_optimized targets dirname names tvs
    executor mp w :
  let call := save_inference_model prune inference_optimize serialize_to_string
                dirname (PyList (PyStr <$> names)) (PyList (PyVar <$> tvs))
                executor (py_program mp) w in
  main_ref mp w < length (heap w) →
  (∀ q g, prune (program_of mp w) (expand_targets targets) = Ok q →
          inference_optimize q = Ok g →
          ∃ w', get_inference_program prune inference_optimize targets
                  (py_program mp) w = (Ok (length (heap w) + 1), w')
              ∧ heap w' !! (length (heap w) + 1) = Some g)
  ∧ (call.1 = Ok () →
     ∃ q g f,
       prune (program_of mp w) (PyVar <$> tvs) = Ok q
       ∧ inference_optimize q = Ok g
       ∧ heap call.2 !! (length (heap w) + 1)
         = Some (with_markers g names (name <$> tvs))
       ∧ fs_ops.read_file f (dirname ++ "/__model__")
         = Ok (serialize_to_string (with_markers g names (name <$> tvs)))
       ∧ call.2 = (save_params executor dirname (py_program mp)
                     (set_fs f (set_heap (heap w ++ [q; with_markers g names (name <$> tvs)]) w))).2
       ∧ ops (global_block (with_markers g names (name <$> tvs)))
         = rev (imap (λ i nm, feed_op (holder "feed" FEED_MINIBATCH)
                        (<["feed" := holder "feed" FEED_MINIBATCH]>
                           (vars (global_block g)) !!! nm) i) names)
           ++ ops (global_block g)
           ++ imap (λ i nm, fetch_op nm "fetch" i) (name <$> tvs)).
Proof.
  intros call Hmain. split.
  - intros q g Hq Hg. rewrite get_inference_program_eq, Hq, Hg.
    eexists. split; [done|]. cbn.
    rewrite lookup_app_r by lia.
    by replace (length (heap w) + 1 - length (heap w)) with 1 by lia.
  - intros Hok. apply outcome_pair in Hok.
    destruct (save_inference_model_inv _ _ _ _ _ _ _ Hmain Hok)
      as (q & g & f1 & f2 & Hq & Hg & Hdecl & Hg1 & Hd1 & Hw & Hexe & Hheap & Hruns & Hm).
    exists q, g, f2. split; [done|]. split; [done|]. split.
    { rewrite Hheap. rewrite lookup_app_r by lia.
      by replace (length (heap w) + 1 - length (heap w)) with 1 by lia. }
    split; [by apply write_file_ok in Hw as [_ ?]|]. split.
    { unfold save_params. rewrite save_vars_none. unfold run_fresh.
      cbn [snd heap set_heap set_fs fs main_program_ runs].
      assert (Hprog : program_of mp
                (set_fs f2 (set_heap (heap w ++ [q; with_markers g names (name <$> tvs)]) w))
              = program_of mp w).
      { unfold program_of, main_ref in *. cbn. by rewrite lookup_total_app_l. }
      rewrite Hprog. cbn [selected]. rewrite Hexe. cbn [fst snd].
      apply World_eq; cbn [heap main_program_ fs runs]; [|done..|].
      - rewrite Hheap, <- app_assoc. done.
      - rewrite Hruns, length_app. done. }
    unfold with_markers, with_fetch_ops, with_feed_ops. cbn.
    by rewrite <- app_assoc.
Qed.

Lemma read_file_node f s data :
  fs_ops.read_file f s = Ok data ↔
  s ≠ "" ∧ fs_ops.node_at (tree f) (fs_ops.resolve f s) = Some (File data).
Proof.
  unfold fs_ops.read_file. case_bool_decide as Hs.
  - split; [done|]. by intros [? _].
  - destruct (fs_ops.node_at _ _) as [[|data']|]; split; try done.
    + by intros [_ ?].
    + intros [= ->]. done.
    + intros [_ [= ->]]. done.
    + by intros [_ ?].
Qed.

Lemma isdir_nonempty f s : fs_ops.isdir f s = true → s ≠ "".
Proof. intros H. apply andb_prop in H as [H _]. by apply bool_decide_eq_true in H. Qed.

Lemma walk_files_lists_child f d n :
  fs_ops.isdir f d = true → os_path.plain_name n = true →
  fs_ops.isfile f (d ++ String "/" n)%string = true →
  ∃ listed, fs_ops.walk_files f d = Ok listed ∧ n ∈ listed.
Proof.
  intros Hd Hn Hf. unfold fs_ops.walk_files. rewrite Hd. eexists. split; [done|].
  apply isdir_nonempty in Hd.
  apply isfile_is_file in Hf as [_ [data Hdata]].
  unfold fs_ops.resolve in *. rewrite resolve_child in Hdata by done.
  apply elem_of_dir_files. by exists data.
Qed.

(** C1, amended: after a call of [save_inference_model] with the
    reference executor has returned, [dirname] is a directory that holds
    one file per [Parameter] of the main program (not per persistable
    variable), at [os.path.join(dirname, name)], listed in the directory
    under the name of the variable when that is a plain file name, and
    the file [__model__], which holds the serialized inference program
    unless the file of a parameter was written over it. *)
Theorem model_directory_after_save tensor dirname names tvs mp w :
  let call := save_inference_model prune inference_optimize serialize_to_string
                dirname (PyList (PyStr <$> names)) (PyList (PyVar <$> tvs))
                (fluid_executor tensor) (py_program mp) w in
  let f' := fs call.2 in
  main_ref mp w < length (heap w) →
  call.1 = Ok () →
  fs_ops.isdir f' dirname = true
  ∧ (∀ v, v ∈ list_vars (program_of mp w) → is_parameter v = true →
          fs_ops.isfile f' (os_path.join dirname (name v)) = true
          ∧ (os_path.plain_name (name v) = true →
             ∃ listed, fs_ops.walk_files f' dirname = Ok listed ∧ name v ∈ listed))
  ∧ fs_ops.isfile f' (dirname ++ "/__model__") = true
  ∧ (∃ listed, fs_ops.walk_files f' dirname = Ok listed ∧ "__model__" ∈ listed)
  ∧ ((∀ v, v ∈ list_vars (program_of mp w) → is_parameter v = true →
           fs_ops.resolve (fs w) (os_path.join dirname (name v))
           ≠ fs_ops.resolve (fs w) (dirname ++ "/__model__")) →
     ∃ q g, prune (program_of mp w) (PyVar <$> tvs) = Ok q
          ∧ inference_optimize q = Ok g
          ∧ fs_ops.read_file f' (dirname ++ "/__model__")
            = Ok (serialize_to_string (with_markers g names (name <$> tvs)))).
Proof.
  intros call f' Hmain Hok. apply outcome_pair in Hok.
  destruct (save_inference_model_inv _ _ _ _ _ _ _ Hmain Hok)
    as (q & g & f1 & f2 & Hq & Hg & Hdecl & Hg1 & Hd1 & Hw & Hexe & _).
  fold call in Hexe. fold f' in Hexe.
  apply write_file_ok in Hw as [Hg2 Hread].
  unfold fluid_executor in Hexe. cbn [emitted global_block ops] in Hexe.
  apply run_ops_save_ok in Hexe as (Hg3 & Hfiles & Hkeep).
  assert (Hd' : fs_ops.isdir f' dirname = true).
  { eapply isdir_grows; [exact Hg3|]. by eapply isdir_grows. }
  assert (Hm' : fs_ops.isfile f' (dirname ++ "/__model__") = true).
  { eapply isfile_grows; [exact Hg3|]. by eapply read_file_isfile. }
  assert (Hres : ∀ s, fs_ops.resolve f2 s = fs_ops.resolve (fs w) s).
  { intros s. unfold fs_ops.resolve. by rewrite (proj1 Hg2), (proj1 Hg1). }
  assert (Hres' : ∀ s, fs_ops.resolve f' s = fs_ops.resolve (fs w) s).
  { intros s. rewrite <- Hres. unfold fs_ops.resolve. by rewrite (proj1 Hg3). }
  split; [done|]. split; [|split; [done|split]].
  - intros v Hv Hp.
    assert (Hfile : fs_ops.isfile f' (os_path.join dirname (name v)) = true).
    { apply Hfiles. by apply list_elem_of_filter. }
    split; [done|]. intros Hplain. by apply walk_files_lists.
  - by apply walk_files_lists_child.
  - intros Hfree. exists q, g. split; [done|]. split; [done|].
    apply read_file_node in Hread as [Hne Hnode].
    apply read_file_node. split; [done|]. rewrite Hres', <- Hres.
    apply Hkeep; [|done]. intros v [Hp Hv]%list_elem_of_filter.
    rewrite !Hres. by apply Hfree.
Qed.

End InferenceRun.

(** The worked case: the network saved into [model] with the reference
    framework and executor. *)
Lemma ex_save_returns :
  (save_inference_model reference_prune reference_inference_optimize
     reference_serialize "model" (PyList (PyStr <$> ["x"])) (PyList (PyVar <$> [ex_y]))
     ex_executor (py_program None) ex_world).1 = Ok ().
Proof. by vm_compute. Qed.

(** C1 on the network: the directory, the file of the weight and the
    description are there. *)
Lemma model_directory_after_save_witness :
  let f' := fs (save_inference_model reference_prune reference_inference_optimize
                  reference_serialize "model" (PyList (PyStr <$> ["x"]))
                  (PyList (PyVar <$> [ex_y])) ex_executor (py_program None) ex_world).2 in
  fs_ops.isdir f' "model" = true
  ∧ fs_ops.isfile f' "model/fc_0.w_0" = true
  ∧ fs_ops.isfile f' "model/__model__" = true.
Proof.
  pose proof (model_directory_after_save reference_prune reference_inference_optimize
                reference_serialize (λ nm, ("tensor:" ++ nm)%string) "model" ["x"] [ex_y]
                None ex_world) as H.
  cbv zeta in H. destruct H as (Hd & Hp & Hm & _).
  - vm_compute. lia.
  - exact ex_save_returns.
  - cbv zeta. split; [exact Hd|]. split; [|exact Hm].
    apply (Hp ex_w); [|reflexivity].
    apply (bool_decide_unpack _). vm_compute. exact I.
Defined.

(** C1 as stated fails: the learning rate of the network is persistable
    and not a [Parameter]; the call returns and the model directory has
    no file for it. *)
Lemma persistable_learning_rate_not_saved :
  persistable ex_lr = true
  ∧ ex_lr ∈ list_vars (program_of None ex_world)
  ∧ fs_ops.isfile
      (fs (save_inference_model reference_prune reference_inference_optimize
             reference_serialize "model" (PyList (PyStr <$> ["x"]))
             (PyList (PyVar <$> [ex_y])) ex_executor (py_program None) ex_world).2)
      (os_path.join "model" (name ex_lr)) = false
  ∧ ¬ every_persistable_variable_saved.
Proof.
  assert (Hin : ex_lr ∈ list_vars (program_of None ex_world)).
  { apply (bool_decide_unpack _). vm_compute. exact I. }
  assert (Hno : fs_ops.isfile
      (fs (save_inference_model reference_prune reference_inference_optimize
             reference_serialize "model" (PyList (PyStr <$> ["x"]))
             (PyList (PyVar <$> [ex_y])) ex_executor (py_program None) ex_world).2)
      (os_path.join "model" (name ex_lr)) = false) by by vm_compute.
  split; [done|]. split; [done|]. split; [done|]. intros Hall.
  specialize (Hall reference_prune reference_inference_optimize reference_serialize
                (λ nm, ("tensor:" ++ nm)%string) "model" ["x"] [ex_y] None ex_world).
  cbv zeta in Hall. rewrite Hall in Hno; [done| |exact ex_save_returns|exact Hin|done].
  vm_compute. lia.
Qed.

(** C8 on the network: the description written is the one of the pruned
    program between its [feed] and [fetch] operators. *)
Lemma inference_program_pruned_and_optimized_witness :
  ∃ q g f,
    reference_prune ex_main (PyVar <$> [ex_y]) = Ok q
    ∧ reference_inference_optimize q = Ok g
    ∧ fs_ops.read_file f "model/__model__"
      = Ok (reference_serialize (with_markers g ["x"] (name <$> [ex_y])))
    ∧ op_type <$> ops (global_block (with_markers g ["x"] (name <$> [ex_y])))
      = ["feed"; "mul"; "fetch"].
Proof.
  destruct (inference_program_pruned_and_optimized reference_prune
              reference_inference_optimize reference_serialize
              (PyVar ex_y) "model" ["x"] [ex_y] ex_executor None ex_world)
    as [_ H].
  - vm_compute. lia.
  - destruct (H ex_save_returns) as (q & g & f & Hq & Hg & _ & Hr & _ & Hops).
    exists q, g, f. split; [exact Hq|]. split; [exact Hg|]. split; [exact Hr|].
    vm_compute in Hq. injection Hq as <-. vm_compute in Hg. injection Hg as <-.
    by vm_compute.
Defined.

(** ** Loading *)










(** The predicate of [load_persistables_if_exist] selects the persistable
    variables that have a file. *)
Lemma filter_persistable_and_exist (present : gset string) l :
  filter (λ v, (if negb (is_persistable v) then false
                else bool_decide (name v ∈ present)) = true) l
  = persistable_and_present present l.
Proof.
  unfold persistable_and_present, is_persistable. apply list_filter_iff.
  intros v. destruct (persistable v); cbn.
  - rewrite bool_decide_eq_true. split; [by intros ?|by intros [_ ?]].
  - split; [done|by intros [? _]].
Qed.

Lemma load_persistables_if_exist_eq executor dirname mp w :
  fs_ops.isdir (fs w) dirname = true →
  load_persistables_if_exist executor dirname (py_program mp) w
  = run_fresh executor
      (emitted (load_op dirname)
         (persistable_and_present
            (fs_ops.dir_files (tree (fs w)) (fs_ops.resolve (fs w) dirname))
            (list_vars (program_of mp w)))) w.
Proof.
  intros Hd. unfold load_persistables_if_exist.
  erewrite bind_ok.
  2:{ unfold walk_files, fs_ops.walk_files. rewrite Hd. reflexivity. }
  rewrite load_vars_none. cbn [selected].
  by rewrite filter_persistable_and_exist.
Qed.

Lemma load_persistables_if_exist_no_dir executor dirname main w :
  fs_ops.isdir (fs w) dirname = false →
  load_persistables_if_exist executor dirname main w
  = (Raise (Exn StopIteration []), w).
Proof.
  intros Hd. unfold load_persistables_if_exist.
  erewrite bind_raise; [done|].
  unfold walk_files, fs_ops.walk_files. by rewrite Hd.
Qed.

(** The reference executor finds the file of every variable that is
    listed in the directory. *)
Lemma run_ops_load_present tensor f dirname vs :
  wf_fs f → fs_ops.isdir f dirname = true →
  Forall (λ v, name v ∈ fs_ops.dir_files (tree f) (fs_ops.resolve f dirname)) vs →
  run_ops tensor f (load_op dirname <$> vs) = (Ok (), f).
Proof.
  intros Hwf Hd. induction 1 as [|v vs Hv _ IH]; [done|].
  cbn [fmap list_fmap run_ops]. rewrite run_op_load.
  apply elem_of_dir_files in Hv as [data Hdata].
  assert (Hplain : os_path.plain_name (name v) = true).
  { pose proof (map_Forall_lookup_1 _ _ _ _ Hwf Hdata) as Hp.
    by apply Forall_cons_1 in Hp as [? _]. }
  assert (Hread : fs_ops.read_file f (os_path.join dirname (name v)) = Ok data).
  { apply read_file_node. split.
    - unfold os_path.join. apply isdir_nonempty in Hd.
      destruct (os_path.startswith_slash (name v)) eqn:Hs.
      + destruct (name v); done.
      + destruct dirname; [done|]. by destruct (_ || _).
    - unfold fs_ops.resolve. rewrite resolve_join; [done| |done].
      by apply isdir_nonempty in Hd. }
  rewrite Hread. exact IH.
Qed.

Section Loading.

Variable parse_from_string : string → outcome Program.

(** What [load_inference_model] does once the description is read. *)
Lemma load_inference_model_read dirname executor w data :
  fs_ops.isdir (fs w) dirname = true →
  fs_ops.read_file (fs w) (dirname ++ "/__model__") = Ok data →
  load_inference_model parse_from_string dirname executor w
  = (program ← Program_parse_from_string parse_from_string data;
     load_persistables_if_exist executor dirname (PyProgram program);;
     feed_target_names ← get_feed_targets_names program;
     fetch_target_names ← get_fetch_targets_names program;
     fetch_targets ← map_M (Block_var_ program) fetch_target_names;
     mret (program, feed_target_names, fetch_targets)) w.
Proof.
  intros Hd Hr. unfold load_inference_model.
  erewrite (bind_ok (os_path_isdir dirname)) by reflexivity.
  rewrite Hd. cbn [negb]. erewrite bind_ok by reflexivity.
  erewrite bind_ok; [reflexivity|]. unfold read_file. by rewrite Hr.
Qed.




End Loading.



(** * Further properties of the module *)

(** ** Saving, then loading *)

Lemma run_ops_load_files tensor f dirname vs :
  (∀ v, v ∈ vs → fs_ops.isfile f (os_path.join dirname (name v)) = true) →
  run_ops tensor f (load_op dirname <$> vs) = (Ok (), f).
Proof.
  induction vs as [|v vs IH]; intros Hfiles; [done|].
  cbn [fmap list_fmap run_ops]. rewrite run_op_load.
  assert (Hf : fs_ops.isfile f (os_path.join dirname (name v)) = true)
    by (apply Hfiles; by left).
  apply isfile_is_file in Hf as [Hne [data Hdata]].
  rewrite (proj2 (read_file_node _ _ data)) by done.
  apply IH. intros v' Hv'. apply Hfiles. by right.
Qed.

(** X1: what [save_vars] has saved, [load_vars] finds.  When
    [save_vars] on a list of variables returns under the reference
    executor, [load_vars] on the same list and directory returns too,
    whatever its other arguments, and leaves the file system as the save
    left it. *)
Theorem load_vars_after_save_vars tensor tensor' dirname main main' predicate
    predicate' (vs : list Var) w :
  let saved := save_vars (fluid_executor tensor) dirname main
                 (PyList (PyVar <$> vs)) predicate w in
  let loaded := load_vars (fluid_executor tensor') dirname main'
                  (PyList (PyVar <$> vs)) predicate' saved.2 in
  saved.1 = Ok () →
  loaded.1 = Ok () ∧ fs loaded.2 = fs saved.2.
Proof.
  intros saved loaded Hok. subst saved loaded. cbn [save_vars load_vars] in *.
  rewrite save_vars_given_vars in *. rewrite load_vars_given_vars.
  unfold run_fresh, fluid_executor in *. cbn [fst snd fs emitted global_block ops] in *.
  destruct (run_ops tensor (fs w) (save_op dirname <$> vs)) as [o f1] eqn:Hsave.
  cbn [fst snd] in *. subst o.
  apply run_ops_save_ok in Hsave as (_ & Hfiles & _).
  by rewrite run_ops_load_files.
Qed.

Lemma load_vars_after_save_vars_witness :
  let saved := save_vars ex_executor "out" PyNone (PyList (PyVar <$> [ex_w; ex_lr]))
                 None ex_world in
  (load_vars ex_executor "out" PyNone (PyList (PyVar <$> [ex_w; ex_lr])) None
     saved.2).1 = Ok ().
Proof.
  cbv zeta.
  apply (load_vars_after_save_vars (λ nm, ("tensor:" ++ nm)%string)
           (λ nm, ("tensor:" ++ nm)%string) "out" PyNone PyNone None None
           [ex_w; ex_lr] ex_world).
  by vm_compute.
Defined.

Lemma run_ops_save_contents tensor d vs :
  ∀ f f',
    NoDup ((λ v, fs_ops.resolve f (os_path.join d (name v))) <$> vs) →
    run_ops tensor f (save_op d <$> vs) = (Ok (), f') →
    ∀ v, v ∈ vs →
         fs_ops.read_file f' (os_path.join d (name v)) = Ok (tensor (name v)).
Proof.
  induction vs as [|v vs IH]; intros f f' Hnd H v' Hin;
    [by apply elem_of_nil in Hin|].
  cbn [fmap list_fmap run_ops] in H.
  destruct (run_op tensor f (save_op d v)) as [[[]|e] f1] eqn:H1; [|done].
  apply run_op_save_ok in H1 as (Hg1 & Hread & _).
  assert (Hres : ∀ s, fs_ops.resolve f1 s = fs_ops.resolve f s).
  { intros s. unfold fs_ops.resolve. by rewrite (proj1 Hg1). }
  cbn [fmap list_fmap] in Hnd. apply NoDup_cons in Hnd as [Hfresh Hnd].
  apply elem_of_cons in Hin as [->|Hin].
  - apply run_ops_save_ok in H as (Hg & _ & Hkeep).
    assert (Hres' : ∀ s, fs_ops.resolve f' s = fs_ops.resolve f s).
    { intros s. rewrite <- Hres. unfold fs_ops.resolve. by rewrite (proj1 Hg). }
    apply read_file_node in Hread as [Hne Hnode]. rewrite Hres in Hnode.
    apply read_file_node. split; [done|]. rewrite Hres'.
    apply Hkeep; [|done].
    intros v2 Hv2 Heq. apply Hfresh. rewrite Hres in Heq. rewrite <- Heq.
    apply list_elem_of_fmap. by exists v2.
  - eapply IH; [|exact H|exact Hin].
    erewrite list_fmap_ext; [exact Hnd|]. intros i x _. cbn. apply Hres.
Qed.

(** X2: after [save_vars] on a list of variables has returned under the
    reference executor, the file [os.path.join(dirname, v.name)] of each
    variable holds the tensor of that variable, provided no two
    variables of the list are saved to the same file. *)
Theorem save_vars_file_contents tensor dirname main predicate (vs : list Var) w :
  let saved := save_vars (fluid_executor tensor) dirname main
                 (PyList (PyVar <$> vs)) predicate w in
  NoDup ((λ v, fs_ops.resolve (fs w) (os_path.join dirname (name v))) <$> vs) →
  saved.1 = Ok () →
  ∀ v, v ∈ vs →
       fs_ops.read_file (fs saved.2) (os_path.join dirname (name v))
       = Ok (tensor (name v)).
Proof.
  intros saved Hnd Hok v Hv. subst saved. cbn [save_vars] in *.
  rewrite save_vars_given_vars in *.
  unfold run_fresh, fluid_executor in *. cbn [fst snd fs emitted global_block ops] in *.
  destruct (run_ops tensor (fs w) (save_op dirname <$> vs)) as [o f1] eqn:Hsave.
  cbn [fst snd] in *. subst o. by eapply run_ops_save_contents.
Qed.

Lemma save_vars_file_contents_witness :
  fs_ops.read_file
    (fs (save_vars ex_executor "out" PyNone (PyList (PyVar <$> [ex_w; ex_lr]))
           None ex_world).2) "out/learning_rate"
  = Ok "tensor:learning_rate".
Proof.
  refine (save_vars_file_contents (λ nm, ("tensor:" ++ nm)%string) "out" PyNone None
            [ex_w; ex_lr] ex_world _ _ ex_lr _).
  - apply (bool_decide_unpack _). by vm_compute.
  - by vm_compute.
  - apply (bool_decide_unpack _). by vm_compute.
Defined.

Lemma program_of_run_fresh executor P mp w :
  main_ref mp w < length (heap w) →
  program_of mp (run_fresh executor P w).2 = program_of mp w.
Proof.
  intros H. unfold program_of, main_ref in *. cbn. by rewrite lookup_total_app_l.
Qed.

(** X3: saving and loading by predicate compose.  When [save_vars] with
    [vars=None] returns under the reference executor, [load_vars] with
    the same directory, program and predicate returns on the world it
    left, with the file system unchanged; so [load_params] returns after
    [save_params], and [load_persistables] after [save_persistables]. *)
Theorem load_after_save_by_predicate tensor tensor' dirname (mp : option nat)
    predicate w :
  let saved := save_vars (fluid_executor tensor) dirname (py_program mp) PyNone
                 predicate w in
  let loaded := load_vars (fluid_executor tensor') dirname (py_program mp) PyNone
                  predicate saved.2 in
  main_ref mp w < length (heap w) →
  saved.1 = Ok () →
  loaded.1 = Ok () ∧ fs loaded.2 = fs saved.2.
Proof.
  intros saved loaded Hmain Hok. subst saved loaded.
  rewrite load_vars_none. rewrite save_vars_none in *.
  rewrite program_of_run_fresh by done.
  unfold run_fresh, fluid_executor in *. cbn [fst snd fs emitted global_block ops] in *.
  destruct (run_ops tensor (fs w) _) as [o f1] eqn:Hsave.
  cbn [fst snd] in *. subst o.
  apply run_ops_save_ok in Hsave as (_ & Hfiles & _).
  by rewrite run_ops_load_files.
Qed.

Lemma load_after_save_by_predicate_witness :
  (load_persistables ex_executor "out" PyNone
     (save_persistables ex_executor "out" PyNone ex_world).2).1 = Ok ()
  ∧ (load_params ex_executor "out" PyNone
       (save_params ex_executor "out" PyNone ex_world).2).1 = Ok ().
Proof.
  split.
  - apply (load_after_save_by_predicate (λ nm, ("tensor:" ++ nm)%string)
             (λ nm, ("tensor:" ++ nm)%string) "out" None (Some is_persistable)
             ex_world); by vm_compute.
  - apply (load_after_save_by_predicate (λ nm, ("tensor:" ++ nm)%string)
             (λ nm, ("tensor:" ++ nm)%string) "out" None (Some is_parameter)
             ex_world); by vm_compute.
Defined.

(** ** Edge behaviour of [save_vars] and [load_vars] *)

Lemma for_each_app {A} (l1 l2 : list A) (body : A → M unit) w :
  for_each (l1 ++ l2) body w = (for_each l1 body;; for_each l2 body) w.
Proof.
  revert w. induction l1 as [|x l1 IH]; intros w; [done|].
  cbn [app for_each]. unfold mbind, M_bind.
  destruct (body x w) as [[[]|e] w1]; [|done]. apply IH.
Qed.

(** X4: an element of [vars] that is not a [Variable] stops [save_vars]
    and [load_vars] with [AssertionError] before the executor is run:
    the file system and the executor log are as before, and the only
    trace is the unfinished throwaway program, holding the operators of
    the variables that came before the offending element. *)
Theorem non_variable_in_vars_stops_before_run executor dirname main predicate
    (vs : list Var) (x : PyVal) (rest : list PyVal) w :
  is_Variable x = false →
  save_vars executor dirname main (PyList ((PyVar <$> vs) ++ x :: rest)) predicate w
  = (Raise (Exn AssertionError []),
     set_heap (heap w ++ [emitted (save_op dirname) vs]) w)
  ∧ load_vars executor dirname main (PyList ((PyVar <$> vs) ++ x :: rest)) predicate w
    = (Raise (Exn AssertionError []),
       set_heap (heap w ++ [emitted (load_op dirname) vs]) w).
Proof.
  intros Hx. cbn [save_vars load_vars]. split.
  - unfold save_vars_given.
    erewrite bind_ok by apply alloc_Program_eq.
    erewrite bind_ok by done.
    erewrite bind_raise; [reflexivity|].
    rewrite for_each_app. erewrite bind_ok.
    2:{ apply (for_each_emit (save_op dirname) _ (heap w)) with (m := ∅) (os := []); [|done].
        intros. by apply save_body_step. }
    cbn [for_each]. rewrite set_heap_set_heap.
    erewrite bind_raise; [reflexivity|].
    erewrite bind_raise; [reflexivity|]. by destruct x.
  - unfold load_vars_given.
    erewrite bind_ok by apply alloc_Program_eq.
    erewrite bind_ok by done.
    erewrite bind_raise; [reflexivity|].
    rewrite for_each_app. erewrite bind_ok.
    2:{ apply (for_each_emit (load_op dirname) _ (heap w)) with (m := ∅) (os := []); [|done].
        intros. by apply load_body_step. }
    cbn [for_each]. rewrite set_heap_set_heap.
    erewrite bind_raise; [reflexivity|].
    erewrite bind_raise; [reflexivity|]. by rewrite Hx.
Qed.

Lemma non_variable_in_vars_stops_before_run_witness :
  (save_vars ex_executor "out" PyNone (PyList [PyVar ex_w; PyStr "learning_rate"])
     None ex_world).1 = Raise (Exn AssertionError [])
  ∧ runs (save_vars ex_executor "out" PyNone
            (PyList [PyVar ex_w; PyStr "learning_rate"]) None ex_world).2 = [].
Proof.
  destruct (non_variable_in_vars_stops_before_run ex_executor "out" PyNone None
              [ex_w] (PyStr "learning_rate") [] ex_world eq_refl) as [H _].
  change (PyList ((PyVar <$> [ex_w]) ++ [PyStr "learning_rate"]))
    with (PyList [PyVar ex_w; PyStr "learning_rate"]) in H.
  rewrite H. split; reflexivity.
Defined.

Lemma declare_clones_lookup vs :
  ∀ (m : gmap string Var) nm c,
    declare_clones m vs !! nm = Some c →
    m !! nm = Some c ∨ ∃ v, v ∈ vs ∧ name v = nm ∧ c = clone_of v.
Proof.
  induction vs as [|v vs IH]; intros m nm c H; [by left|].
  cbn [declare_clones foldl] in H. apply IH in H as [H|(v' & Hin & Hn & Hc)].
  - destruct (decide (name v = nm)) as [<-|Hne].
    + rewrite lookup_insert_eq in H. injection H as <-.
      right. exists v. split; [by left|done].
    + rewrite lookup_insert_ne in H by done. by left.
  - right. exists v'. split; [by right|done].
Qed.

Lemma declare_clones_declared vs :
  ∀ (m : gmap string Var) v, v ∈ vs → is_Some (declare_clones m vs !! name v).
Proof.
  assert (Hkeep : ∀ vs (m : gmap string Var) nm,
             is_Some (m !! nm) → is_Some (declare_clones m vs !! nm)).
  { clear vs. induction vs as [|v vs IH]; intros m nm H; [done|].
    cbn [declare_clones foldl]. apply IH. rewrite lookup_insert.
    case_decide; [by eexists|done]. }
  induction vs as [|v vs IH]; intros m v' Hin; [by apply elem_of_nil in Hin|].
  cbn [declare_clones foldl]. apply elem_of_cons in Hin as [->|Hin].
  - apply Hkeep. rewrite lookup_insert_eq. by eexists.
  - by apply IH.
Qed.

(** X5: the throwaway program of [save_vars] and [load_vars] declares
    exactly the names of the given variables, and what it declares are
    clones: plain variables, never [Parameter]s, always persistable
    (also when the variable given is not), with the name, shape, dtype,
    type and lod level of a given variable of that name. *)
Theorem throwaway_program_declares_persistable_clones executor dirname main
    predicate (vs : list Var) w :
  ∃ Ps Pl,
    save_vars executor dirname main (PyList (PyVar <$> vs)) predicate w
    = run_fresh executor Ps w
    ∧ load_vars executor dirname main (PyList (PyVar <$> vs)) predicate w
      = run_fresh executor Pl w
    ∧ vars (global_block Ps) = vars (global_block Pl)
    ∧ (∀ v, v ∈ vs → is_Some (vars (global_block Ps) !! name v))
    ∧ (∀ nm c, vars (global_block Ps) !! nm = Some c →
               name c = nm ∧ persistable c = true ∧ is_parameter c = false
               ∧ ∃ v, v ∈ vs ∧ name v = nm ∧ shape c = shape v
                    ∧ dtype c = dtype v ∧ type c = type v
                    ∧ lod_level c = lod_level v).
Proof.
  exists (emitted (save_op dirname) vs), (emitted (load_op dirname) vs).
  cbn [save_vars load_vars]. rewrite save_vars_given_vars, load_vars_given_vars.
  split; [done|]. split; [done|]. split; [done|]. split.
  - intros v Hv. by apply declare_clones_declared.
  - intros nm c H. cbn in H.
    apply declare_clones_lookup in H as [H|(v & Hin & Hn & ->)]; [done|].
    split; [done|]. split; [done|]. split; [done|]. by exists v.
Qed.

(** ** Reading the markers of any program *)

Lemma feed_names_fold os :
  ∀ acc,
    foldl feed_names_step (Ok acc) os
    = if bool_decide (Forall (λ l, l ≠ []) (feed_outs os))
      then Ok (rev (default "" ∘ head <$> feed_outs os) ++ acc)
      else Raise (Exn IndexError ["list index out of range"]).
Proof.
  assert (Hraise : ∀ os e, foldl feed_names_step (Raise e) os = Raise e).
  { clear os. induction os as [|o os IH]; intros e; [done|]. cbn [foldl]. apply IH. }
  unfold feed_outs. induction os as [|o os IH]; intros acc; [done|].
  cbn [foldl]. unfold feed_names_step at 2. cbn [mbind outcome_bind].
  destruct (decide (op_type o = "feed")) as [Ho|Ho].
  - rewrite (bool_decide_eq_true_2 _ Ho), filter_cons_True by done.
    cbn [fmap list_fmap].
    destruct (desc_output o "Out") as [|x l] eqn:Hout; cbn [py_first mbind outcome_bind mret outcome_ret].
    + rewrite Hraise. rewrite bool_decide_eq_false_2; [done|].
      intros H. by apply Forall_cons_1 in H as [? _].
    + rewrite IH. cbn [rev compose head default].
      case_bool_decide as Hall.
      * rewrite bool_decide_eq_true_2 by (constructor; done).
        by rewrite <- app_assoc.
      * rewrite bool_decide_eq_false_2; [done|].
        intros H. by apply Forall_cons_1 in H as [_ ?].
  - rewrite (bool_decide_eq_false_2 _ Ho), filter_cons_False by done. apply IH.
Qed.

Lemma fetch_names_fold os :
  ∀ acc,
    foldl fetch_names_step (Ok acc) os
    = if bool_decide (Forall (λ l, l ≠ []) (fetch_ins os))
      then Ok (acc ++ (default "" ∘ head <$> fetch_ins os))
      else Raise (Exn IndexError ["list index out of range"]).
Proof.
  assert (Hraise : ∀ os e, foldl fetch_names_step (Raise e) os = Raise e).
  { clear os. induction os as [|o os IH]; intros e; [done|]. cbn [foldl]. apply IH. }
  unfold fetch_ins. induction os as [|o os IH]; intros acc;
    [by cbn; rewrite app_nil_r|].
  cbn [foldl]. unfold fetch_names_step at 2. cbn [mbind outcome_bind].
  destruct (decide (op_type o = "fetch")) as [Ho|Ho].
  - rewrite (bool_decide_eq_true_2 _ Ho), filter_cons_True by done.
    cbn [fmap list_fmap].
    destruct (desc_input o "X") as [|x l] eqn:Hin; cbn [py_first mbind outcome_bind mret outcome_ret].
    + rewrite Hraise. rewrite bool_decide_eq_false_2; [done|].
      intros H. by apply Forall_cons_1 in H as [? _].
    + rewrite IH. cbn [compose head default].
      case_bool_decide as Hall.
      * rewrite bool_decide_eq_true_2 by (constructor; done).
        by rewrite <- app_assoc.
      * rewrite bool_decide_eq_false_2; [done|].
        intros H. by apply Forall_cons_1 in H as [_ ?].
  - rewrite (bool_decide_eq_false_2 _ Ho), filter_cons_False by done. apply IH.
Qed.

(** X6: on any program, [get_feed_targets_names] returns the first [Out]
    name of each [feed] operator of the global block in the reverse of
    the operator order, and [get_fetch_targets_names] the first [X] name
    of each [fetch] operator in operator order; each raises [IndexError]
    exactly when such an operator has no name in that slot; neither
    changes the world. *)
Theorem targets_names_of_any_program (program : nat) w :
  let os := ops (global_block (heap w !!! program)) in
  get_feed_targets_names program w
  = (if bool_decide (Forall (λ l, l ≠ []) (feed_outs os))
     then Ok (rev (default "" ∘ head <$> feed_outs os))
     else Raise (Exn IndexError ["list index out of range"]), w)
  ∧ get_fetch_targets_names program w
    = (if bool_decide (Forall (λ l, l ≠ []) (fetch_ins os))
       then Ok (default "" ∘ head <$> fetch_ins os)
       else Raise (Exn IndexError ["list index out of range"]), w).
Proof.
  intros os. unfold get_feed_targets_names, get_fetch_targets_names,
    get_feed_targets_names_of, get_fetch_targets_names_of, get_Program, lift,
    mbind, M_bind.
  change (mret []) with (Ok (@nil string)).
  rewrite feed_names_fold, fetch_names_fold. fold os.
  split; f_equal; case_bool_decide; by rewrite ?app_nil_r.
Qed.

(** ** Edge behaviour of the loaders *)



(** ** Reading the value of a parameter *)

(** X8: [get_parameter_value] refuses what is not a [Parameter] with
    [AssertionError] before it does anything: no program is created and
    the executor is not run. *)
Theorem get_parameter_value_refuses_non_parameter (para : PyVal)
    (executor : FetchExecutor) w :
  is_Parameter para = false →
  get_parameter_value para executor w = (Raise (Exn AssertionError []), w).
Proof.
  intros H. unfold get_parameter_value. rewrite H. by apply bind_raise.
Qed.

Lemma get_parameter_value_refuses_non_parameter_witness :
  get_parameter_value (PyVar ex_lr) ex_fetch_executor ex_world
  = (Raise (Exn AssertionError []), ex_world).
Proof.
  apply (get_parameter_value_refuses_non_parameter (PyVar ex_lr) ex_fetch_executor
           ex_world).
  reflexivity.
Defined.

Lemma clone_var_fresh v w :
  _clone_var_in_block_ (length (heap w)) (PyVar v)
    (set_heap (heap w ++ [Program_new]) w)
  = (Ok (clone_of v), set_heap (heap w ++ [fetch_program v]) w).
Proof.
  erewrite clone_var_alloc by done. by rewrite set_heap_set_heap.
Qed.

(** X9: on a [Parameter], [get_parameter_value] runs the executor exactly
    once, on a fresh program that holds no operator and declares only the
    clone of the parameter, with the clone as the one-element fetch list;
    it returns the first fetched value, raises [IndexError] when the
    executor fetched nothing and what the executor raises otherwise; the
    objects that existed before are unchanged. *)
Theorem get_parameter_value_runs_fetch_of_clone (v : Var)
    (executor : FetchExecutor) w :
  is_parameter v = true →
  let ran := executor (fetch_program v) [clone_of v] (fs w) in
  get_parameter_value (PyVar v) executor w
  = (fetched ← ran.1; py_first fetched,
     {| heap := heap w ++ [fetch_program v]; main_program_ := main_program_ w;
        fs := ran.2; runs := runs w ++ [(length (heap w), fetch_program v)] |})
  ∧ ops (global_block (fetch_program v)) = []
  ∧ dom (vars (global_block (fetch_program v))) = {[ name v ]}
  ∧ persistable (clone_of v) = true ∧ is_parameter (clone_of v) = false.
Proof.
  intros Hp ran. split; [|split; [done|split; [|done]]].
  - unfold get_parameter_value. cbn [is_Parameter]. rewrite Hp.
    erewrite bind_ok by done.
    erewrite bind_ok by apply alloc_Program_eq.
    erewrite bind_ok by apply clone_var_fresh.
    unfold Executor_run_fetch, mbind at 1, M_bind at 1.
    cbn [heap set_heap fs main_program_ runs]. rewrite lookup_total_alloc.
    fold ran. destruct ran as [[fetched|e] f']; reflexivity.
  - cbn. by rewrite dom_singleton_L.
Qed.

Lemma get_parameter_value_runs_fetch_of_clone_witness :
  (get_parameter_value (PyVar ex_w) ex_fetch_executor ex_world).1
  = Ok "tensor:fc_0.w_0".
Proof.
  destruct (get_parameter_value_runs_fetch_of_clone ex_w ex_fetch_executor ex_world
              eq_refl) as [H _].
  rewrite H. reflexivity.
Defined.

(** X10: [get_parameter_value_by_name] looks the name up in the global
    block of the program ([default_main_program()] for [None]) only.  A
    name that is not declared there raises [ValueError], a declared
    variable that is not a [Parameter] raises [AssertionError], both
    with the world as it was; on a declared [Parameter] the call is
    [get_parameter_value] on it. *)
Theorem get_parameter_value_by_name_looks_up_global_block (nm : string)
    (executor : FetchExecutor) (mp : option nat) w :
  let declared := vars (global_block (program_of mp w)) !! nm in
  (declared = None →
   get_parameter_value_by_name nm executor (py_program mp) w
   = (Raise (Exn ValueError ["var " ++ nm ++ " not in this block"]%string), w))
  ∧ (∀ v, declared = Some v → is_parameter v = false →
          get_parameter_value_by_name nm executor (py_program mp) w
          = (Raise (Exn AssertionError []), w))
  ∧ (∀ v, declared = Some v → is_parameter v = true →
          get_parameter_value_by_name nm executor (py_program mp) w
          = get_parameter_value (PyVar v) executor w).
Proof.
  intros declared. subst declared.
  assert (Heq : get_parameter_value_by_name nm executor (py_program mp) w
                = (var ← Block_var_ (main_ref mp w) nm;
                   get_parameter_value (PyVar var) executor) w).
  { unfold get_parameter_value_by_name.
    by rewrite (bind_ok _ _ _ _ _ (default_main_resolved mp w)). }
  rewrite Heq.
  assert (Hvar : Block_var_ (main_ref mp w) nm w
                 = (Block_var (global_block (program_of mp w)) nm, w)) by done.
  unfold Block_var in Hvar. split; [|split].
  - intros H. rewrite H in Hvar. by apply bind_raise.
  - intros v H Hp. rewrite H in Hvar. erewrite bind_ok by exact Hvar.
    by apply get_parameter_value_refuses_non_parameter.
  - intros v H Hp. rewrite H in Hvar. by erewrite bind_ok by exact Hvar.
Qed.

Lemma get_parameter_value_by_name_looks_up_global_block_witness :
  get_parameter_value_by_name "bias" ex_fetch_executor PyNone ex_world
  = (Raise (Exn ValueError ["var bias not in this block"]), ex_world)
  ∧ get_parameter_value_by_name "learning_rate" ex_fetch_executor PyNone ex_world
    = (Raise (Exn AssertionError []), ex_world)
  ∧ (get_parameter_value_by_name "fc_0.w_0" ex_fetch_executor PyNone ex_world).1
    = Ok "tensor:fc_0.w_0".
Proof.
  split; [|split].
  - destruct (get_parameter_value_by_name_looks_up_global_block "bias"
                ex_fetch_executor None ex_world) as (H & _).
    apply H. by vm_compute.
  - destruct (get_parameter_value_by_name_looks_up_global_block "learning_rate"
                ex_fetch_executor None ex_world) as (_ & H & _).
    apply (H ex_lr); by vm_compute.
  - destruct (get_parameter_value_by_name_looks_up_global_block "fc_0.w_0"
                ex_fetch_executor None ex_world) as (_ & _ & H).
    change PyNone with (py_program None).
    rewrite (H ex_w); by vm_compute.
Defined.

(** ** Failures of [save_inference_model] after its argument checks *)




Section InferenceEdges.

Variable prune : Program → list PyVal → outcome Program.
Variable inference_optimize : Program → outcome Program.
Variable serialize_to_string : Program → string.



(** X13: a call of [save_inference_model] that returns has created
    exactly three program objects, the pruned program, the inference
    program and the throwaway program of [save_params], in this order,
    and has run the executor exactly once, on the last; every program
    that existed before, the main program among them, is unchanged. *)
Theorem save_inference_model_frame dirname (names : list string) (tvs : list Var)
    executor (mp : option nat) w :
  let call := save_inference_model prune inference_optimize serialize_to_string
                dirname (PyList (PyStr <$> names)) (PyList (PyVar <$> tvs))
                executor (py_program mp) w in
  main_ref mp w < length (heap w) →
  call.1 = Ok () →
  ∃ q Pinf Psave,
    heap call.2 = heap w ++ [q; Pinf; Psave]
    ∧ runs call.2 = runs w ++ [(length (heap w) + 2, Psave)]
    ∧ main_program_ call.2 = main_program_ w
    ∧ program_of mp call.2 = program_of mp w
    ∧ ops (global_block Psave)
      = save_op dirname <$> filter (λ v, is_parameter v = true)
                              (list_vars (program_of mp w)).
Proof.
  intros call Hmain Hok. apply outcome_pair in Hok.
  destruct (save_inference_model_inv _ _ _ _ _ _ _ _ _ _ Hmain Hok)
    as (q & g & f1 & f2 & _ & _ & _ & _ & _ & _ & _ & Hheap & Hruns & Hm).
  fold call in Hheap, Hruns, Hm.
  eexists q, _, _. split; [exact Hheap|]. split; [exact Hruns|].
  split; [exact Hm|]. split; [|done].
  unfold program_of, main_ref in *. rewrite Hheap, Hm.
  by rewrite lookup_total_app_l.
Qed.

(** X14: [get_inference_program] only builds programs: whatever it is
    given, it neither runs an executor nor touches the file system, it
    leaves every program that existed unchanged, and it creates at most
    two programs (the pruned one and the optimized one). *)
Theorem get_inference_program_only_builds_programs targets (main : PyVal) w :
  let w' := (get_inference_program prune inference_optimize targets main w).2 in
  fs w' = fs w ∧ runs w' = runs w ∧ main_program_ w' = main_program_ w
  ∧ ∃ created : list Program, heap w' = heap w ++ created ∧ (length created ≤ 2)%nat.
Proof.
  intros w'. subst w'.
  assert (Hp : ∀ mp, let w' := (get_inference_program prune inference_optimize
                                   targets (py_program mp) w).2 in
             fs w' = fs w ∧ runs w' = runs w ∧ main_program_ w' = main_program_ w
             ∧ ∃ created : list Program, heap w' = heap w ++ created ∧ (length created ≤ 2)%nat).
  { intros mp. cbv zeta. rewrite get_inference_program_eq.
    destruct (prune _ _) as [q|e].
    - destruct (inference_optimize q) as [g|e]; cbn.
      + repeat split. exists [q; g]. split; [done|]. cbn. lia.
      + repeat split. exists [q]. split; [done|]. cbn. lia.
    - cbn. repeat split. exists []. split; [by rewrite app_nil_r|]. cbn. lia. }
  destruct main as [|b|z|s|l|v|r|st me];
    try (repeat split; exists []; split; [by rewrite app_nil_r|cbn; lia]).
  - apply (Hp None).
  - apply (Hp (Some r)).
Qed.

End InferenceEdges.



Lemma save_inference_model_frame_witness :
  length (heap (save_inference_model reference_prune reference_inference_optimize
                  reference_serialize "model" (PyList (PyStr <$> ["x"]))
                  (PyList (PyVar <$> [ex_y])) ex_executor (py_program None)
                  ex_world).2) = 4.
Proof.
  destruct (save_inference_model_frame reference_prune reference_inference_optimize
              reference_serialize "model" ["x"] [ex_y] ex_executor None ex_world)
    as (q & Pinf & Psave & Hheap & _).
  - vm_compute. lia.
  - exact ex_save_returns.
  - rewrite Hheap. reflexivity.
Defined.

(** ** Well-formed file systems stay well-formed *)

Lemma split_slash_no_slash s :
  Forall (λ c, os_path.has_slash c = false) (os_path.split_slash s).
Proof.
  induction s as [|c s IH]; [by repeat constructor|].
  cbn [os_path.split_slash]. case_bool_decide as Hc.
  - by constructor.
  - pose proof (split_slash_nonempty s) as Hne.
    destruct (os_path.split_slash s) as [|h t]; [done|].
    apply Forall_cons_1 in IH as [Hh Ht]. constructor; [|done].
    cbn. by rewrite bool_decide_eq_false_2, Hh.
Qed.

Lemma step_plain_path acc c :
  Forall (λ n, os_path.plain_name n = true) acc →
  os_path.has_slash c = false →
  Forall (λ n, os_path.plain_name n = true) (os_path.step acc c).
Proof.
  intros Hacc Hc. unfold os_path.step.
  case_bool_decide as H1; [done|]. case_bool_decide as H2.
  - destruct acc; [done|]. by apply Forall_cons_1 in Hacc as [_ ?].
  - constructor; [|done]. unfold os_path.plain_name. rewrite Hc. cbn.
    apply bool_decide_eq_true_2. naive_solver.
Qed.

Lemma resolve_plain_path c s :
  Forall (λ n, os_path.plain_name n = true) c →
  Forall (λ n, os_path.plain_name n = true) (os_path.resolve c s).
Proof.
  intros Hc. unfold os_path.resolve.
  assert (H : ∀ l acc, Forall (λ c, os_path.has_slash c = false) l →
                       Forall (λ n, os_path.plain_name n = true) acc →
                       Forall (λ n, os_path.plain_name n = true)
                         (fold_left os_path.step l acc)).
  { induction l as [|x l IH]; intros acc Hl Hacc; [done|].
    apply Forall_cons_1 in Hl as [Hx Hl]. cbn [fold_left].
    apply IH; [done|]. by apply step_plain_path. }
  apply H; [apply split_slash_no_slash|]. by destruct (os_path.startswith_slash s).
Qed.

Lemma mkdir_p_wf t p t' :
  map_Forall (λ (q : list string) (_ : node),
                Forall (λ n, os_path.plain_name n = true) q) t →
  Forall (λ n, os_path.plain_name n = true) p →
  fs_ops.mkdir_p t p = Some t' →
  map_Forall (λ (q : list string) (_ : node),
                Forall (λ n, os_path.plain_name n = true) q) t'.
Proof.
  revert t'. induction p as [|n p IH]; intros t' Hwf Hp H.
  - cbn in H. by simplify_eq.
  - cbn in H. destruct (fs_ops.mkdir_p t p) as [t1|] eqn:H1; [|done].
    pose proof Hp as Hp'. apply Forall_cons_1 in Hp' as [_ Hp'].
    specialize (IH t1 Hwf Hp' eq_refl).
    destruct (t1 !! (n :: p)) as [[|data]|]; simplify_eq; [done|].
    by apply map_Forall_insert_2.
Qed.

Lemma makedirs_wf f s f' :
  wf_fs f → plain_cwd f → fs_ops.makedirs f s = (Ok (), f') →
  wf_fs f' ∧ plain_cwd f'.
Proof.
  unfold fs_ops.makedirs, wf_fs, plain_cwd. intros Hwf Hc.
  case_bool_decide; [done|].
  destruct (fs_ops.node_at _ _); [done|].
  destruct (fs_ops.mkdir_p _ _) as [t'|] eqn:Hm; [|done]. intros [= <-].
  cbn. split; [|done]. eapply mkdir_p_wf; [done| |exact Hm].
  by apply resolve_plain_path.
Qed.

Lemma write_file_wf f s data f' :
  wf_fs f → plain_cwd f → fs_ops.write_file f s data = (Ok (), f') →
  wf_fs f' ∧ plain_cwd f'.
Proof.
  unfold fs_ops.write_file, wf_fs, plain_cwd. intros Hwf Hc.
  case_bool_decide; [done|].
  destruct (fs_ops.put_file _ _ _) as [t'|] eqn:Hp; [|done]. intros [= <-].
  apply put_file_inv in Hp as (-> & _). cbn. split; [|done].
  apply map_Forall_insert_2; [|done]. by apply resolve_plain_path.
Qed.

Lemma run_ops_save_wf tensor d vs :
  ∀ f f', wf_fs f → plain_cwd f →
          run_ops tensor f (save_op d <$> vs) = (Ok (), f') →
          wf_fs f' ∧ plain_cwd f'.
Proof.
  induction vs as [|v vs IH]; intros f f' Hwf Hc H.
  - cbn in H. by injection H as <-.
  - cbn [fmap list_fmap run_ops] in H.
    destruct (run_op tensor f (save_op d v)) as [[[]|e] f1] eqn:H1; [|done].
    eapply IH; [| |exact H].
    + rewrite run_op_save in H1.
      destruct (fs_ops.mkdir_p _ _) as [t1|] eqn:Hm; [|done]. cbn in H1.
      destruct (fs_ops.put_file _ _ _) as [t2|] eqn:Hp; [|done].
      case_bool_decide; [done|]. injection H1 as <-.
      apply put_file_inv in Hp as (-> & _). unfold wf_fs. cbn.
      assert (Hplain : Forall (λ n, os_path.plain_name n = true)
                         (fs_ops.resolve f (os_path.join d (name v))))
        by by apply resolve_plain_path.
      apply map_Forall_insert_2; [done|].
      eapply mkdir_p_wf; [exact Hwf| |exact Hm].
      destruct (fs_ops.resolve f _); [done|].
      by apply Forall_cons_1 in Hplain as [_ ?].
    + rewrite run_op_save in H1.
      destruct (fs_ops.mkdir_p _ _) as [t1|]; [|done]. cbn in H1.
      destruct (fs_ops.put_file _ _ _) as [t2|]; [|done].
      case_bool_decide; [done|]. by injection H1 as <-.
Qed.

(** ** Saving the inference model, then loading it *)

Lemma feed_names_with_markers g names fetch_names :
  no_op_of_type "feed" (global_block g) →
  keys_named (global_block g) →
  Forall (declared_or_holder g) names →
  get_feed_targets_names_of (with_markers g names fetch_names) = Ok names.
Proof.
  intros Hno Hkeys Hdecl.
  pose proof (feed_names_with_feed_ops g names "feed" Hno Hkeys
                (proj1 (Forall_forall _ _) Hdecl)) as Hfeed.
  unfold get_feed_targets_names_of, with_markers, with_fetch_ops in *.
  cbn [global_block set_global_block ops].
  rewrite foldl_app, Hfeed. apply feed_names_other.
  apply Forall_forall. intros o Ho.
  apply elem_of_lookup_imap in Ho as (i & nm & -> & _). done.
Qed.

Lemma fetch_names_with_markers g names fetch_names :
  no_op_of_type "fetch" (global_block g) →
  get_fetch_targets_names_of (with_markers g names fetch_names) = Ok fetch_names.
Proof.
  intros Hno. apply fetch_names_with_fetch_ops.
  unfold no_op_of_type, with_feed_ops. cbn [global_block set_global_block ops].
  apply Forall_app. split; [|done].
  apply Forall_forall. intros o Ho.
  apply list_elem_of_In, in_rev, list_elem_of_In in Ho.
  apply elem_of_lookup_imap in Ho as (i & nm & -> & _). done.
Qed.

Lemma map_M_Block_var r P (ns : list string) w :
  heap w !! r = Some P →
  Forall (λ n, is_Some (vars (global_block P) !! n)) ns →
  map_M (Block_var_ r) ns w
  = (Ok ((λ n, vars (global_block P) !!! n) <$> ns), w).
Proof.
  intros Hr. induction 1 as [|n ns [v Hv] _ IH]; [done|].
  cbn [map_M]. erewrite bind_ok.
  2:{ unfold Block_var_. erewrite bind_ok by by apply get_Program_at.
      unfold lift, Block_var. by rewrite Hv. }
  erewrite bind_ok by exact IH.
  cbn [fmap list_fmap]. by rewrite (lookup_total_correct _ _ _ Hv).
Qed.

Lemma ensure_dir_inv_dir dirname w w' :
  (if negb (fs_ops.isdir (fs w) dirname) then os_makedirs dirname else mret ()) w
  = (Ok (), w') →
  ∃ f1, w' = set_fs f1 w
      ∧ (f1 = fs w ∨ fs_ops.makedirs (fs w) dirname = (Ok (), f1))
      ∧ fs_ops.isdir f1 dirname = true.
Proof.
  unfold os_makedirs.
  destruct (fs_ops.isdir (fs w) dirname) eqn:Hd; cbn [negb].
  - intros [= <-]. exists (fs w). split; [by destruct w|]. split; [by left|done].
  - destruct (fs_ops.makedirs (fs w) dirname) as [[[]|e] f1] eqn:Hm; [|done].
    intros [= <-]. exists f1. split; [done|]. split; [by right|].
    by apply makedirs_ok in Hm as [_ ?].
Qed.

Section InferenceRoundTrip.

Variable prune : Program → list PyVal → outcome Program.
Variable inference_optimize : Program → outcome Program.
Variable serialize_to_string : Program → string.
Variable parse_from_string : string → outcome Program.

(** The same, with where the directory came from: it was there, or
    [os.makedirs] made it. *)
Lemma save_inference_model_inv_dir dirname names tvs executor mp w w' :
  main_ref mp w < length (heap w) →
  save_inference_model prune inference_optimize serialize_to_string dirname
    (PyList (PyStr <$> names)) (PyList (PyVar <$> tvs)) executor (py_program mp) w
  = (Ok (), w') →
  ∃ q g f1 f2,
    let Pinf := with_markers g names (name <$> tvs) in
    let Psave := emitted (save_op dirname)
                   (filter (λ v, is_parameter v = true) (list_vars (program_of mp w))) in
    prune (program_of mp w) (PyVar <$> tvs) = Ok q
    ∧ inference_optimize q = Ok g
    ∧ Forall (declared_or_holder g) names
    ∧ (f1 = fs w ∨ fs_ops.makedirs (fs w) dirname = (Ok (), f1))
    ∧ fs_ops.isdir f1 dirname = true
    ∧ fs_ops.write_file f1 (dirname ++ "/__model__") (serialize_to_string Pinf)
      = (Ok (), f2)
    ∧ executor Psave f2 = (Ok (), fs w')
    ∧ heap w' = heap w ++ [q; Pinf; Psave]
    ∧ runs w' = runs w ++ [(length (heap w) + 2, Psave)]
    ∧ main_program_ w' = main_program_ w.
Proof.
  intros Hmain H. unfold save_inference_model in H.
  apply bind_inv in H as (lf & w1 & Hf & H).
  apply checked_list in Hf as (-> & -> & _); [|done..].
  apply bind_inv in H as (lt & w1 & Ht & H).
  apply checked_list in Ht as (-> & -> & _); [|done..].
  rewrite (bind_ok _ _ _ _ _ (default_main_resolved mp w)) in H.
  erewrite (bind_ok (os_path_isdir dirname)) in H by reflexivity.
  apply bind_inv in H as ([] & w1 & Hdir & H).
  apply ensure_dir_inv_dir in Hdir as (f1 & -> & Hg1 & Hd1).
  apply bind_inv in H as (rq & w2 & Hq & H).
  apply Program_prune_inv in Hq as (q & Hq & -> & ->).
  apply bind_inv in H as (rg & w3 & Hopt & H).
  apply Program_inference_optimize_inv in Hopt as (g & Hopt & -> & ->).
  cbn [heap set_heap set_fs] in Hq, Hopt, H.
  rewrite lookup_total_alloc in Hopt.
  rewrite py_strs_fmap, py_vars_fmap in H.
  set (w3 := set_heap ((heap w ++ [q]) ++ [g]) (set_heap (heap w ++ [q]) (set_fs f1 w))) in H.
  assert (H3 : heap w3 !! length (heap w ++ [q]) = Some g).
  { cbn. rewrite lookup_app_r by lia. by rewrite Nat.sub_diag. }
  apply bind_inv in H as ([] & w4 & Hfeed & H).
  pose proof (prepend_feed_ops_inv _ _ _ _ _ _ H3 Hfeed) as Hdecl.
  rewrite prepend_feed_ops_declared with (P := g) in Hfeed;
    [|done|by apply Forall_forall].
  injection Hfeed as <-.
  change ((heap w ++ [q]) ++ [g]) with (heap w3) in H.
  assert (Hlt : length (heap w ++ [q]) < length (heap w3)).
  { cbn. rewrite !length_app. cbn. lia. }
  erewrite (bind_ok (append_fetch_ops _ _ _)) in H.
  2:{ apply append_fetch_ops_at. by apply lookup_set_heap_insert. }
  rewrite set_heap_insert_insert in H.
  set (Pinf := with_fetch_ops (with_feed_ops g names "feed") (name <$> tvs) "fetch") in H.
  erewrite bind_ok in H.
  2:{ apply get_Program_at. by apply lookup_set_heap_insert. }
  apply bind_inv in H as ([] & w5 & Hw & H).
  unfold write_file in Hw. cbn [fs set_heap set_fs w3] in Hw.
  destruct (fs_ops.write_file f1 (dirname ++ "/__model__") (serialize_to_string Pinf))
    as [[[]|e] f2] eqn:Hwrite; [|done].
  injection Hw as <-.
  unfold save_params in H.
  change (PyProgram (main_ref mp w)) with (py_program (Some (main_ref mp w))) in H.
  rewrite save_vars_none in H.
  assert (Hheap : <[length (heap w ++ [q]) := Pinf]> (heap w3) = heap w ++ [q; Pinf]).
  { cbn. rewrite <- app_assoc. cbn.
    replace (length (heap w ++ [q])) with (length (heap w) + 1) by (rewrite length_app; cbn; lia).
    rewrite insert_app_r. done. }
  change ((heap w ++ [q]) ++ [g]) with (heap w3) in H.
  rewrite Hheap in H. unfold run_fresh in H.
  cbn [heap set_heap set_fs fs main_program_ runs] in H.
  assert (Hprog : program_of (Some (main_ref mp w))
                    (set_fs f2 (set_heap (heap w ++ [q; Pinf]) w3)) = program_of mp w).
  { unfold program_of. cbn. by rewrite lookup_total_app_l. }
  rewrite Hprog in H.
  set (Psave := emitted (save_op dirname) _) in H.
  destruct (executor Psave f2) as [o f3] eqn:Hexe. cbn [fst snd] in H.
  injection H as -> <-. cbn [heap runs fs main_program_].
  exists q, g, f1, f2. cbn zeta. fold Pinf.
  split; [done|]. split; [done|]. split; [done|]. split; [done|]. split; [done|].
  split; [done|]. split; [done|]. split.
  - by rewrite <- app_assoc.
  - split; [|done]. do 3 f_equal. rewrite length_app. cbn. lia.
Qed.

(** X15: a saved inference model loads back.  Let a call of
    [save_inference_model] return under the reference executor, on a
    well-formed file system, where parsing undoes the serializing of the
    inference program, the pruned and optimized program has no [feed]
    or [fetch] operator yet,
    declares its variables under their names and declares the targets,
    and no parameter file is written over [__model__].  Then
    [load_inference_model] on the same directory returns: the program
    it returns is the inference program of the save (the pruned and
    optimized main program with its feed and fetch operators), stored
    as a fresh object, the feed names are the names given to the save, in their
    order, and the fetch targets are the variables of that program named
    like the target variables, in their order. *)
Theorem load_inference_model_after_save tensor tensor' dirname
    (names : list string) (tvs : list Var) (mp : option nat) w :
  let saved := save_inference_model prune inference_optimize serialize_to_string
                 dirname (PyList (PyStr <$> names)) (PyList (PyVar <$> tvs))
                 (fluid_executor tensor) (py_program mp) w in
  let loaded := load_inference_model parse_from_string dirname
                  (fluid_executor tensor') saved.2 in
  main_ref mp w < length (heap w) →
  wf_fs (fs w) → plain_cwd (fs w) →
  (∀ q g, prune (program_of mp w) (PyVar <$> tvs) = Ok q →
          inference_optimize q = Ok g →
          parse_from_string
            (serialize_to_string (with_markers g names (name <$> tvs)))
          = Ok (with_markers g names (name <$> tvs))
          ∧ no_op_of_type "feed" (global_block g)
          ∧ no_op_of_type "fetch" (global_block g)
          ∧ keys_named (global_block g)
          ∧ Forall (λ v, is_Some (vars (global_block g) !! name v)) tvs) →
  (∀ v, v ∈ list_vars (program_of mp w) → is_parameter v = true →
        fs_ops.resolve (fs w) (os_path.join dirname (name v))
        ≠ fs_ops.resolve (fs w) (dirname ++ "/__model__")) →
  saved.1 = Ok () →
  ∃ q g fetch_targets,
    prune (program_of mp w) (PyVar <$> tvs) = Ok q
    ∧ inference_optimize q = Ok g
    ∧ loaded.1 = Ok (length (heap saved.2), names, fetch_targets)
    ∧ name <$> fetch_targets = name <$> tvs
    ∧ heap loaded.2 !! length (heap saved.2)
      = Some (with_markers g names (name <$> tvs))
    ∧ Forall (λ t, vars (global_block (with_markers g names (name <$> tvs)))
                     !! name t = Some t) fetch_targets
    ∧ fs loaded.2 = fs saved.2.
Proof.
  intros saved loaded Hmain Hwf Hcwd Hprune Hfree Hok.
  apply outcome_pair in Hok.
  destruct (save_inference_model_inv_dir _ _ _ _ _ _ _ Hmain Hok)
    as (q & g & f1 & f2 & Hq & Hg & Hdecl & Hf1 & Hd1 & Hw & Hexe & Hheap & _).
  fold saved in Hexe, Hheap.
  destruct (Hprune q g Hq Hg) as (Hparse & Hnofeed & Hnofetch & Hkeys & Htv).
  set (Pinf := with_markers g names (name <$> tvs)) in *.
  (* the file system the save left *)
  assert (Hwf1 : wf_fs f1 ∧ plain_cwd f1).
  { destruct Hf1 as [->|Hmk]; [done|]. by eapply makedirs_wf. }
  assert (Hcwd1 : cwd f1 = cwd (fs w)).
  { destruct Hf1 as [->|Hmk]; [done|]. by apply makedirs_ok in Hmk as [[? _] _]. }
  destruct Hwf1 as [Hwf1 Hc1].
  destruct (write_file_wf _ _ _ _ Hwf1 Hc1 Hw) as [Hwf2 Hc2].
  apply write_file_ok in Hw as [Hg2 Hread].
  unfold fluid_executor in Hexe. cbn [emitted global_block ops] in Hexe.
  destruct (run_ops_save_wf _ _ _ _ _ Hwf2 Hc2 Hexe) as [Hwf3 _].
  apply run_ops_save_ok in Hexe as (Hg3 & _ & Hkeep).
  assert (Hres : ∀ s, fs_ops.resolve f2 s = fs_ops.resolve (fs w) s).
  { intros s. unfold fs_ops.resolve. by rewrite (proj1 Hg2), Hcwd1. }
  assert (Hres' : ∀ s, fs_ops.resolve (fs saved.2) s = fs_ops.resolve (fs w) s).
  { intros s. rewrite <- Hres. unfold fs_ops.resolve. by rewrite (proj1 Hg3). }
  assert (Hd' : fs_ops.isdir (fs saved.2) dirname = true).
  { eapply isdir_grows; [exact Hg3|]. by eapply isdir_grows. }
  assert (Hmodel : fs_ops.read_file (fs saved.2) (dirname ++ "/__model__")
                   = Ok (serialize_to_string Pinf)).
  { apply read_file_node in Hread as [Hne Hnode].
    apply read_file_node. split; [done|]. rewrite Hres', <- Hres.
    apply Hkeep; [|done]. intros v [Hp Hv]%list_elem_of_filter.
    rewrite !Hres. by apply Hfree. }
  (* the load *)
  subst loaded. rewrite (load_inference_model_read _ _ _ _ _ Hd' Hmodel).
  unfold Program_parse_from_string. rewrite Hparse.
  erewrite bind_ok by by erewrite bind_ok.
  set (w1 := set_heap (heap saved.2 ++ [Pinf]) saved.2).
  set (Pload := emitted (load_op dirname)
                  (persistable_and_present
                     (fs_ops.dir_files (tree (fs w1)) (fs_ops.resolve (fs w1) dirname))
                     (list_vars Pinf))).
  set (w2 := (run_fresh (λ _ f, (Ok (), f)) Pload w1).2).
  assert (Hload : load_persistables_if_exist (fluid_executor tensor') dirname
                    (PyProgram (length (heap saved.2))) w1 = (Ok (), w2)).
  { rewrite (load_persistables_if_exist_eq _ dirname (Some (length (heap saved.2))))
      by done.
    change (program_of (Some (length (heap saved.2))) w1)
      with ((heap saved.2 ++ [Pinf]) !!! length (heap saved.2)).
    rewrite lookup_total_alloc. unfold run_fresh, fluid_executor.
    cbn [emitted global_block ops fs set_heap].
    rewrite run_ops_load_present; [done..|].
    apply Forall_forall. intros v Hv.
    apply list_elem_of_filter in Hv as [[_ Hin] _]. exact Hin. }
  erewrite bind_ok by exact Hload.
  assert (H2 : heap w2 !! length (heap saved.2) = Some Pinf).
  { subst w2 w1. cbn. rewrite lookup_app_l by (rewrite length_app; cbn; lia).
    rewrite lookup_app_r by lia. by rewrite Nat.sub_diag. }
  erewrite bind_ok.
  2:{ unfold get_feed_targets_names. erewrite bind_ok by by apply get_Program_at.
      unfold lift. subst Pinf. by rewrite feed_names_with_markers. }
  erewrite bind_ok.
  2:{ unfold get_fetch_targets_names. erewrite bind_ok by by apply get_Program_at.
      unfold lift. subst Pinf. by rewrite fetch_names_with_markers. }
  assert (Hdeclared : Forall (λ n, is_Some (vars (global_block Pinf) !! n))
                        (name <$> tvs)).
  { apply Forall_fmap. eapply Forall_impl; [exact Htv|]. intros v [c Hc]. cbn.
    destruct (decide ("fetch" = name v)) as [<-|Hn1];
      [rewrite lookup_insert_eq; by eexists|].
    rewrite lookup_insert_ne by done.
    destruct (decide ("feed" = name v)) as [<-|Hn2];
      [rewrite lookup_insert_eq; by eexists|].
    rewrite lookup_insert_ne by done. by eexists. }
  erewrite bind_ok by by apply (map_M_Block_var _ Pinf).
  assert (Hkeys' : map_Forall (λ k v, name v = k) (vars (global_block Pinf))).
  { cbn. apply map_Forall_insert_2; [done|]. by apply map_Forall_insert_2. }
  exists q, g, ((λ n, vars (global_block Pinf) !!! n) <$> (name <$> tvs)).
  cbn [fst snd]. split; [exact Hq|]. split; [exact Hg|].
  split; [done|]. split; [|split; [exact H2|split]].
  - rewrite <- !list_fmap_compose. apply list_fmap_ext. intros i v Hi. cbn.
    apply Forall_fmap, Forall_forall with (x := v) in Hdeclared as [c Hc];
      [|by eapply list_elem_of_lookup_2].
    cbn in Hc. rewrite (lookup_total_correct _ _ _ Hc).
    by apply (map_Forall_lookup_1 _ _ _ _ Hkeys').
  - apply Forall_fmap, Forall_fmap. apply Forall_forall. intros v Hv. cbn.
    apply Forall_fmap, Forall_forall with (x := v) in Hdeclared as [c Hc]; [|done].
    cbn in Hc. rewrite (lookup_total_correct _ _ _ Hc).
    by rewrite (map_Forall_lookup_1 _ _ _ _ Hkeys' Hc).
  - done.
Qed.

End InferenceRoundTrip.

(** X15 on the network saved into [model]. *)
Lemma load_inference_model_after_save_witness :
  ∃ q g fetch_targets,
    reference_prune ex_main [PyVar ex_y] = Ok q
    ∧ reference_inference_optimize q = Ok g
    ∧ (load_inference_model reference_parse "model" ex_executor ex_world_saved).1
    = Ok (4, ["x"], fetch_targets)
    ∧ name <$> fetch_targets = ["y"]
    ∧ heap (load_inference_model reference_parse "model" ex_executor
              ex_world_saved).2 !! 4
      = Some (with_markers g ["x"] ["y"]).
Proof.
  destruct (load_inference_model_after_save reference_prune
              reference_inference_optimize reference_serialize reference_parse
              (λ nm, ("tensor:" ++ nm)%string) (λ nm, ("tensor:" ++ nm)%string)
              "model" ["x"] [ex_y] None ex_world)
    as (q & g & fetch_targets & Hq & Hg & H1 & H2 & H3 & _).
  - vm_compute. lia.
  - unfold wf_fs. apply (bool_decide_unpack _). by vm_compute.
  - unfold plain_cwd. apply (bool_decide_unpack _). by vm_compute.
  - intros q g Hq Hg. vm_compute in Hq. injection Hq as <-.
    vm_compute in Hg. injection Hg as <-.
    split; [by vm_compute|]. split; [repeat constructor; discriminate|].
    split; [repeat constructor; discriminate|]. split.
    + unfold keys_named. apply (bool_decide_unpack _). by vm_compute.
    + repeat constructor. apply (bool_decide_unpack _). by vm_compute.
  - refine (proj1 (Forall_forall
             (λ v, is_parameter v = true →
                   fs_ops.resolve (fs ex_world) (os_path.join "model" (name v))
                   ≠ fs_ops.resolve (fs ex_world) "model/__model__") _) _).
    apply (bool_decide_unpack _). by vm_compute.
  - exact ex_save_returns.
  - exists q, g, fetch_targets. exact (conj Hq (conj Hg (conj H1 (conj H2 H3)))).
Defined.
